(** * QR session manager of the Telegram session bot

    A shallow embedding of [SessionManager] from [bot.py] (the class with
    [create_qr_session], [wait_for_qr_scan] and [cleanup_session]) together
    with the two [Database] methods it calls, and the properties of the
    session hand-off that the specification states about it.

    Modelling conventions.
    - [self.active_qr_sessions] is a Python dict keyed by user id: a
      [gmap Z Session].
    - A [TelegramClient] object is a natural-number handle; the set of
      handles whose network connection is open is part of the state.
    - Every awaited Telethon call may raise.  What the network does at each
      call site is an input of the operation (records [CreateNet] and
      [WaitNet]); the operations are then deterministic functions of the
      state.
    - The sqlite tables the manager touches are part of the state
      ([api_configs] read by [get_api_by_id], [user_sessions] written by
      [save_session]).  An api profile id and an [api_id] outside the signed
      64-bit range of a sqlite [INTEGER] make the statement that binds them
      raise [OverflowError].  User ids are taken to be within that range, as
      the ids Telegram gives are, so the statements that bind a user id do
      not raise.  Calls of [logger.error] and the unused dict [self.clients]
      are left out.
    - [Exn] has the exceptions below [Exception] only: a coroutine is not
      cancelled while it runs, and the constructor of a client is given an
      [api_id] and an [api_hash] it accepts.
    - Each network call, each write of a session row or of an action log
      line and each mutation of the registry is appended to [trace], oldest
      first, so that orderings can be stated.
    - One coroutine runs from its first to its last statement without
      another coroutine of the manager being scheduled in between. *)

From stdpp Require Import gmap strings list fin_maps pretty.

Open Scope Z_scope.

(** ** Exceptions and results *)

(** The exceptions the manager distinguishes: [asyncio.TimeoutError], the
    [KeyError] of [del d[k]] on a missing key, the [AttributeError] of an
    attribute read on [None], and any other [Exception] with its text. *)
Inductive Exn : Type :=
| TimeoutError
| KeyError (key : Z)
| AttributeError (msg : string)
| Exception (msg : string).

(** [str(e)] *)
Definition str (e : Exn) : string :=
  match e with
  | TimeoutError => ""
  | KeyError k => pretty k
  | AttributeError m => m
  | Exception m => m
  end.

Inductive Res (A : Type) : Type :=
| Ok (a : A)
| Raise (e : Exn).
Arguments Ok {A} a.
Arguments Raise {A} e.

(** ** Data *)

(** A row of table [api_configs] as [get_api_by_id] selects it:
    [(id, name, api_id, api_hash)]. *)
Record ApiConfig : Type := mkApiConfig {
  cfg_id : Z;
  cfg_name : string;
  cfg_api_id : Z;
  cfg_api_hash : string }.

Record Device : Type := mkDevice {
  device_model : string;
  system_version : string;
  app_version : string }.

(** The literal list [devices] of [create_qr_session]. *)
Definition devices : list Device :=
  [ mkDevice "Samsung SM-G991B" "Android 13" "10.0.0";
    mkDevice "iPhone15,3" "iOS 17.1.2" "10.0.0";
    mkDevice "Desktop" "Windows 10" "4.0.0" ].

(** [random.choice(seq)] with the drawn number as an argument. *)
Definition random_choice (seq : list Device) (draw : nat) : Device :=
  nth (draw mod length seq)%nat seq (mkDevice "" "" "").

(** The chat message object kept in a session; opaque to the manager. *)
Definition Message : Type := nat.

(** A value of [active_qr_sessions]: the dict with keys ['client'],
    ['qr_login'], ['api_config_id'], ['api_name'], ['created_at'],
    ['message'].  The QR login object is represented by its [url]. *)
Record Session : Type := mkSession {
  client : nat;
  qr_login : string;
  api_config_id : Z;
  api_name : string;
  created_at : nat;
  message : Message }.

(** A row of table [user_sessions] as [save_session] inserts it. *)
Record SessionRow : Type := mkSessionRow {
  row_user_id : Z;
  row_telegram_id : option Z;
  row_phone_number : option string;
  row_session_string : string;
  row_api_config_id : Z }.

(** The object [get_me] returns. *)
Record User : Type := mkUser {
  user_id_of : Z;
  user_phone : option string }.

(** The dict returned by a successful [wait_for_qr_scan]. *)
Record SessionInfo : Type := mkSessionInfo {
  session_string : string;
  telegram_id : option Z;
  phone_number : option string;
  info_api_name : string }.

Inductive Event : Type :=
| EvNewClient (c : nat) (api_id : Z) (api_hash : string) (d : Device)
| EvConnect (c : nat)
| EvQrLogin (c : nat)
| EvDisconnect (c : nat)
| EvWaitFor (c : nat) (timeout : nat)
| EvSleep (secs : nat)
| EvIsUserAuthorized (c : nat)
| EvGetMe (c : nat)
| EvStore (user_id : Z) (c : nat)
| EvDelete (user_id : Z)
| EvSaveSession (row : SessionRow)
| EvLogAction (user_id : Z) (action details : string).

Global Instance Device_eq_dec : EqDecision Device.
Proof. solve_decision. Defined.

Global Instance SessionRow_eq_dec : EqDecision SessionRow.
Proof. solve_decision. Defined.

Global Instance Event_eq_dec : EqDecision Event.
Proof. solve_decision. Defined.

Record State : Type := mkState {
  active_qr_sessions : gmap Z Session;   (* self.active_qr_sessions *)
  api_configs : gmap Z ApiConfig;        (* table api_configs, by id *)
  user_sessions : list SessionRow;       (* table user_sessions, newest first *)
  connected : gset nat;                  (* clients with an open connection *)
  next_client : nat;                     (* clients constructed so far *)
  clock : nat;                           (* seconds *)
  trace : list Event }.

(** ** The effect monad: state and exceptions *)

Definition M (A : Type) : Type := State -> Res A * State.

Definition ret {A} (a : A) : M A := fun st => (Ok a, st).

Definition raise {A} (e : Exn) : M A := fun st => (Raise e, st).

Definition bind {A B} (m : M A) (k : A -> M B) : M B :=
  fun st =>
    match m st with
    | (Ok a, st') => k a st'
    | (Raise e, st') => (Raise e, st')
    end.

(** [try: body except Exception: handler] and [try: body except: handler].
    Every exception of [Exn] is an [Exception], so both handlers catch
    everything the body can raise here. *)
Definition try_except {A} (body : M A) (handler : Exn -> M A) : M A :=
  fun st =>
    match body st with
    | (Ok a, st') => (Ok a, st')
    | (Raise e, st') => handler e st'
    end.

Notation "'let*' x ':=' m 'in' k" := (bind m (fun x => k))
  (at level 10, x pattern, m at level 100, k at level 200).
Notation "m ';;' k" := (bind m (fun _ => k))
  (at level 100, k at level 200, right associativity).

(** [pass] *)
Definition pass : M unit := ret tt.

Definition get : M State := fun st => (Ok st, st).

Definition emit (e : Event) : M unit :=
  fun st =>
    (Ok tt, mkState (active_qr_sessions st) (api_configs st) (user_sessions st)
                    (connected st) (next_client st) (clock st)
                    (trace st ++ [e])).

Definition set_sessions (r : gmap Z Session) : M unit :=
  fun st =>
    (Ok tt, mkState r (api_configs st) (user_sessions st)
                    (connected st) (next_client st) (clock st) (trace st)).

Definition set_connected (s : gset nat) : M unit :=
  fun st =>
    (Ok tt, mkState (active_qr_sessions st) (api_configs st) (user_sessions st)
                    s (next_client st) (clock st) (trace st)).

Definition advance (secs : nat) : M unit :=
  fun st =>
    (Ok tt, mkState (active_qr_sessions st) (api_configs st) (user_sessions st)
                    (connected st) (next_client st) (clock st + secs)%nat
                    (trace st)).

(** Turns the network's answer at a call site into a result or a raise. *)
Definition answer {A} (r : Res A) : M A :=
  match r with
  | Ok a => ret a
  | Raise e => raise e
  end.

Definition set_next_client (n : nat) : M unit :=
  fun st =>
    (Ok tt, mkState (active_qr_sessions st) (api_configs st) (user_sessions st)
                    (connected st) n (clock st) (trace st)).

Definition set_user_sessions (rows : list SessionRow) : M unit :=
  fun st =>
    (Ok tt, mkState (active_qr_sessions st) (api_configs st) rows
                    (connected st) (next_client st) (clock st) (trace st)).

(** ** The database methods the manager calls *)

(** The values of a sqlite [INTEGER]: the signed 64-bit integers. *)
Definition fits_int64 (z : Z) : bool :=
  (- 2 ^ 63 <=? z) && (z <? 2 ^ 63).

(** What [cursor.execute] raises when a parameter is a Python [int] outside
    that range. *)
Definition overflow_error : Exn :=
  Exception "Python int too large to convert to SQLite INTEGER".

(** [Database.get_api_by_id]: the row with that id, or [None].  The ids of
    the rows are values of the [INTEGER] column [id], so an id outside the
    signed 64-bit range is the id of no row; binding it to the statement
    raises. *)
Definition get_api_by_id (id : Z) : M (option ApiConfig) :=
  let* st := get in
  match api_configs st !! id with
  | Some cfg => ret (Some cfg)
  | None => if fits_int64 id then ret None else raise overflow_error
  end.

(** [Database.log_action] *)
Definition log_action (user_id : Z) (action details : string) : M unit :=
  emit (EvLogAction user_id action details).

(** [Database.save_session]: inserts the row, then logs the action. *)
Definition save_session (user_id : Z) (session_string : string)
    (api_config_id : Z) (telegram_id : option Z)
    (phone_number : option string) : M unit :=
  let row := mkSessionRow user_id telegram_id phone_number session_string
                          api_config_id in
  let* st := get in
  set_user_sessions (row :: user_sessions st) ;;
  emit (EvSaveSession row) ;;
  log_action user_id "session_created"
             ("api_config_id: " +:+ pretty api_config_id).

(** ** The Telethon and asyncio calls *)

(** [TelegramClient(StringSession(), api_id, api_hash, **device)]: a new
    client object, not yet connected. *)
Definition TelegramClient (api_id : Z) (api_hash : string) (d : Device)
  : M nat :=
  let* st := get in
  let c := next_client st in
  set_next_client (S c) ;;
  emit (EvNewClient c api_id api_hash d) ;;
  ret c.

(** [await client.connect()] *)
Definition connect (c : nat) (r : Res unit) : M unit :=
  emit (EvConnect c) ;;
  answer r ;;
  let* st := get in
  set_connected ({[c]} ∪ connected st).

(** [await client.qr_login()]: the login object, represented by its url. *)
Definition client_qr_login (c : nat) (r : Res string) : M string :=
  emit (EvQrLogin c) ;;
  answer r.

(** [await client.disconnect()].  When the call raises, the connection is
    left as it was. *)
Definition disconnect (c : nat) (r : Res unit) : M unit :=
  emit (EvDisconnect c) ;;
  answer r ;;
  let* st := get in
  set_connected (connected st ∖ {[c]}).

(** What happens to the QR code while it is waited for: it is scanned
    [after] seconds, never, or the wait raises after [after] seconds. *)
Inductive Scan : Type :=
| Scanned (after : nat)
| NotScanned
| ScanFails (after : nat) (e : Exn).

(** [await asyncio.wait_for(qr_login.wait(), timeout=timeout)]: the inner
    wait wins when it ends strictly before the deadline. *)
Definition wait_for (c : nat) (w : Scan) (timeout : nat) : M unit :=
  emit (EvWaitFor c timeout) ;;
  match w with
  | Scanned t =>
      if (t <? timeout)%nat then advance t
      else (advance timeout ;; raise TimeoutError)
  | NotScanned => advance timeout ;; raise TimeoutError
  | ScanFails t e =>
      if (t <? timeout)%nat then (advance t ;; raise e)
      else (advance timeout ;; raise TimeoutError)
  end.

(** [await asyncio.sleep(secs)] *)
Definition sleep (secs : nat) : M unit :=
  emit (EvSleep secs) ;;
  advance secs.

(** [await client.is_user_authorized()] *)
Definition is_user_authorized (c : nat) (r : Res bool) : M bool :=
  emit (EvIsUserAuthorized c) ;;
  answer r.

(** [await client.get_me()]: a user object or [None]. *)
Definition get_me (c : nat) (r : Res (option User)) : M (option User) :=
  emit (EvGetMe c) ;;
  answer r.

(** [me.id] and [me.phone]; on [None] the attribute read raises. *)
Definition attr_id (me : option User) : M Z :=
  match me with
  | Some u => ret (user_id_of u)
  | None => raise (AttributeError "'NoneType' object has no attribute 'id'")
  end.

Definition attr_phone (me : option User) : M (option string) :=
  match me with
  | Some u => ret (user_phone u)
  | None => raise (AttributeError "'NoneType' object has no attribute 'phone'")
  end.

(** ** The registry statements *)

(** [self.active_qr_sessions[user_id] = s] *)
Definition store_session (user_id : Z) (s : Session) : M unit :=
  let* st := get in
  set_sessions (<[user_id := s]> (active_qr_sessions st)) ;;
  emit (EvStore user_id (client s)).

(** [del self.active_qr_sessions[user_id]] *)
Definition del_session (user_id : Z) : M unit :=
  let* st := get in
  match active_qr_sessions st !! user_id with
  | Some _ =>
      set_sessions (delete user_id (active_qr_sessions st)) ;;
      emit (EvDelete user_id)
  | None => raise (KeyError user_id)
  end.

(** ** SessionManager *)

(** What the network does during one [create_qr_session]. *)
Record CreateNet : Type := mkCreateNet {
  net_old_disconnect : Res unit;   (* disconnect of the previous client *)
  net_draw : nat;                  (* the draw of random.choice *)
  net_connect : Res unit;          (* client.connect() *)
  net_qr_login : Res string }.     (* client.qr_login(), its url *)

(** What the network does during one [wait_for_qr_scan]. *)
Record WaitNet : Type := mkWaitNet {
  net_scan : Scan;                     (* qr_login.wait() *)
  net_is_authorized : Res bool;        (* client.is_user_authorized() *)
  net_session_string : string;         (* client.session.save() *)
  net_get_me : Res (option User);      (* client.get_me() *)
  net_disconnect : Res unit;           (* disconnect after saving *)
  net_cleanup_disconnect : Res unit }. (* disconnect in cleanup_session *)

Definition msg_api_not_found : string := "❌ API конфиг не найден".
Definition msg_session_not_found : string := "❌ Сессия не найдена".
Definition msg_not_authorized : string := "❌ Авторизация не завершена".
Definition msg_timeout : string := "❌ Время ожидания истекло".
Definition msg_error (e : Exn) : string := "❌ Ошибка: " +:+ str e.

Definition create_qr_session (net : CreateNet) (user_id : Z)
    (api_config_id : Z) (message : Message) : M (bool * string) :=
  try_except
    (let* api_config := get_api_by_id api_config_id in
     match api_config with
     | None => ret (false, msg_api_not_found)
     | Some cfg =>
         let api_name := cfg_name cfg in
         let api_id := cfg_api_id cfg in
         let api_hash := cfg_api_hash cfg in
         let* st := get in
         match active_qr_sessions st !! user_id with
         | Some old =>
             try_except (disconnect (client old) (net_old_disconnect net))
                        (fun _ => pass)
         | None => pass
         end ;;
         let device := random_choice devices (net_draw net) in
         let* c := TelegramClient api_id api_hash device in
         connect c (net_connect net) ;;
         let* qr := client_qr_login c (net_qr_login net) in
         let* st := get in
         store_session user_id
           (mkSession c qr api_config_id api_name (clock st) message) ;;
         log_action user_id "qr_created" ("api: " +:+ api_name) ;;
         ret (true, qr)
     end)
    (fun e => ret (false, msg_error e)).

Definition cleanup_session (r : Res unit) (user_id : Z) : M unit :=
  let* st := get in
  match active_qr_sessions st !! user_id with
  | Some s =>
      try_except (disconnect (client s) r) (fun _ => pass) ;;
      del_session user_id
  | None => pass
  end.

(** The second component of what [wait_for_qr_scan] returns. *)
Inductive WaitPayload : Type :=
| Text (s : string)
| Info (i : SessionInfo).

Definition wait_for_qr_scan (net : WaitNet) (user_id : Z)
  : M (bool * WaitPayload) :=
  let* st := get in
  match active_qr_sessions st !! user_id with
  | None => ret (false, Text msg_session_not_found)
  | Some data =>
      try_except
        (wait_for (client data) (net_scan net) 120 ;;
         sleep 3 ;;
         let* is_authorized :=
           is_user_authorized (client data) (net_is_authorized net) in
         if negb is_authorized then ret (false, Text msg_not_authorized)
         else
           let session_string := net_session_string net in
           let* ident :=
             try_except
               (let* me := get_me (client data) (net_get_me net) in
                let* telegram_id := attr_id me in
                let* phone_number := attr_phone me in
                ret (Some telegram_id, phone_number))
               (fun _ => ret (None, None)) in
           let '(telegram_id, phone_number) := ident in
           save_session user_id session_string (api_config_id data)
                        telegram_id phone_number ;;
           disconnect (client data) (net_disconnect net) ;;
           del_session user_id ;;
           ret (true, Info (mkSessionInfo session_string telegram_id
                                          phone_number (api_name data))))
        (fun e =>
           match e with
           | TimeoutError =>
               cleanup_session (net_cleanup_disconnect net) user_id ;;
               ret (false, Text msg_timeout)
           | _ =>
               cleanup_session (net_cleanup_disconnect net) user_id ;;
               ret (false, Text (msg_error e))
           end)
  end.

(** ** Observations on runs *)

(** The events a run from [st] to [st'] appended. *)
Definition events_since (st st' : State) : list Event :=
  drop (length (trace st)) (trace st').

(** How often [client.disconnect()] was invoked on [c]. *)
Definition disconnects (c : nat) (tr : list Event) : nat :=
  length (filter (fun e => e = EvDisconnect c) tr).

(** The sessions the registry holds for one user. *)
Definition sessions_of (st : State) (user_id : Z) : list Session :=
  (filter (fun kv => kv.1 = user_id)
          (map_to_list (active_qr_sessions st))).*2.

(** No scan is seen before the deadline of the bounded wait. *)
Definition no_scan_within (timeout : nat) (w : Scan) : Prop :=
  match w with
  | Scanned t => (timeout <= t)%nat
  | NotScanned => True
  | ScanFails t _ => (timeout <= t)%nat
  end.

(** A connection that is open while no registry entry refers to it. *)
Definition leaked (st : State) (c : nat) : Prop :=
  c ∈ connected st /\
  forall u s, active_qr_sessions st !! u = Some s -> client s <> c.

(** Every client a registry entry refers to has been constructed. *)
Definition registry_clients_known (st : State) : Prop :=
  forall u s, active_qr_sessions st !! u = Some s ->
              (client s < next_client st)%nat.

(** The calls a user of the manager can make: start a handshake, wait for
    it, and drop it. *)
Inductive Call : Type :=
| CallCreate (net : CreateNet) (user_id api_config_id : Z) (message : Message)
| CallWait (net : WaitNet) (user_id : Z)
| CallCleanup (r : Res unit) (user_id : Z).

Definition exec (c : Call) (st : State) : State :=
  match c with
  | CallCreate net u p msg => snd (create_qr_session net u p msg st)
  | CallWait net u => snd (wait_for_qr_scan net u st)
  | CallCleanup r u => snd (cleanup_session r u st)
  end.

Definition exec_all (cs : list Call) (st : State) : State :=
  fold_left (fun s c => exec c s) cs st.

(** The four rows [add_default_apis] puts into table [api_configs]. *)
Definition default_apis : gmap Z ApiConfig :=
  list_to_map
    [ (1, mkApiConfig 1 "Telegram Desktop" 2040
                      "b18441a1ff607e10a989891a5462e627");
      (2, mkApiConfig 2 "Android" 6 "eb06d4abfb49dc3eeb1aeb98ae0f581e");
      (3, mkApiConfig 3 "iOS" 4 "014b35b6184100b085b0d0572f9b5103");
      (4, mkApiConfig 4 "Webogram" 2496 "8da85b0d5bfe62527e5b244c209159c3") ].

(** The state of a freshly started bot. *)
Definition initial_state : State :=
  mkState ∅ default_apis [] ∅ 0 0 [].

(** A network on which every call of [create_qr_session] succeeds. *)
Definition create_ok (url : string) : CreateNet :=
  mkCreateNet (Ok tt) 0 (Ok tt) (Ok url).

(** The state after user [u] opened a handshake with the first profile. *)
Definition state_waiting (u : Z) : State :=
  snd (create_qr_session (create_ok "tg://login?token=AQ") u 1 0%nat
                         initial_state).

(** The session [state_waiting] holds for its user. *)
Definition session_waiting : Session :=
  mkSession 0 "tg://login?token=AQ" 1 "Telegram Desktop" 0 0%nat.

(** The identity [wait_for_qr_scan] records for an answer of [get_me]. *)
Definition identity_of (r : Res (option User)) : option Z * option string :=
  match r with
  | Ok (Some me) => (Some (user_id_of me), user_phone me)
  | _ => (None, None)
  end.

(** The events of a scan that is seen, authorized and saved. *)
Definition saved_events (u : Z) (data : Session) (blob : string)
    (ident : option Z * option string) : list Event :=
  [ EvWaitFor (client data) 120; EvSleep 3;
    EvIsUserAuthorized (client data); EvGetMe (client data);
    EvSaveSession (mkSessionRow u ident.1 ident.2 blob (api_config_id data));
    EvLogAction u "session_created"
                ("api_config_id: " +:+ pretty (api_config_id data)) ].

(** [a] occurs in [tr] and [b] occurs later. *)
Definition precedes (a b : Event) (tr : list Event) : Prop :=
  exists l1 l2 l3, tr = l1 ++ a :: l2 ++ b :: l3.

(** The same network with another answer to [get_me]. *)
Definition with_get_me (net : WaitNet) (r : Res (option User)) : WaitNet :=
  mkWaitNet (net_scan net) (net_is_authorized net) (net_session_string net)
            r (net_disconnect net) (net_cleanup_disconnect net).

(** The text the two handlers of [wait_for_qr_scan] report for [e]. *)
Definition failure_text (e : Exn) : string :=
  match e with
  | TimeoutError => msg_timeout
  | _ => msg_error e
  end.

(** The same network with another answer to the eviction's disconnect. *)
Definition with_old_disconnect (net : CreateNet) (r : Res unit) : CreateNet :=
  mkCreateNet r (net_draw net) (net_connect net) (net_qr_login net).

(** The session [create_qr_session] stores when it succeeds from [st]. *)
Definition new_session (st : State) (url : string) (p : Z)
    (cfg : ApiConfig) (msg : Message) : Session :=
  mkSession (next_client st) url p (cfg_name cfg) (clock st) msg.

(** A network on which the code is scanned after one second, the login is
    authorized, and every later call succeeds with the given identity. *)
Definition wait_ok (me : Res (option User)) : WaitNet :=
  mkWaitNet (Scanned 1) (Ok true) "1Aa" me (Ok tt) (Ok tt).

(** The account of the first scenario. *)
Definition user_555 : User := mkUser 555 (Some "+1555").

(** The same, but the login turns out not to be authorized. *)
Definition wait_unauthorized : WaitNet :=
  mkWaitNet (Scanned 1) (Ok false) "1Aa" (Ok None) (Ok tt) (Ok tt).

(** The same as [wait_ok], but every disconnect raises. *)
Definition wait_disconnect_fails : WaitNet :=
  mkWaitNet (Scanned 1) (Ok true) "1Aa" (Ok (Some user_555))
            (Raise (Exception "Cannot send requests while disconnected"))
            (Raise (Exception "Cannot send requests while disconnected")).

(** A network on which the connection is made and [qr_login] is refused. *)
Definition create_login_refused : CreateNet :=
  mkCreateNet (Ok tt) 0 (Ok tt)
              (Raise (Exception "The api_id/api_hash combination is invalid")).

(** What [create_qr_session] reports for a profile id that no row has. *)
Definition absent_text (p : Z) : string :=
  if fits_int64 p then msg_api_not_found else msg_error overflow_error.

(** The events of the eviction step of [create_qr_session]. *)
Definition eviction_events (st : State) (u : Z) : list Event :=
  match active_qr_sessions st !! u with
  | Some old => [EvDisconnect (client old)]
  | None => []
  end.

(** The open connections after the eviction step, whose disconnect
    answered [r]. *)
Definition connected_after_eviction (st : State) (u : Z) (r : Res unit)
  : gset nat :=
  match active_qr_sessions st !! u with
  | Some old =>
      match r with
      | Ok _ => connected st ∖ {[client old]}
      | Raise _ => connected st
      end
  | None => connected st
  end.

(** The events of constructing and connecting a client. *)
Definition connect_events (st : State) (cfg : ApiConfig) (draw : nat)
  : list Event :=
  [ EvNewClient (next_client st) (cfg_api_id cfg) (cfg_api_hash cfg)
                (random_choice devices draw);
    EvConnect (next_client st) ].

(** ** The other database methods *)

Definition set_api_configs (t : gmap Z ApiConfig) : M unit :=
  fun st =>
    (Ok tt, mkState (active_qr_sessions st) t (user_sessions st)
                    (connected st) (next_client st) (clock st) (trace st)).

(** The id [INTEGER PRIMARY KEY AUTOINCREMENT] gives the next row of
    [api_configs]: one more than the largest id in use, and 1 in an empty
    table.  No statement of the program deletes a row of this table, so the
    largest id in use is the largest id ever given. *)
Definition next_api_id (t : gmap Z ApiConfig) : Z :=
  1 + map_fold (fun k _ acc => Z.max k acc) 0 t.

(** [INSERT INTO api_configs (name, api_id, api_hash) VALUES (?, ?, ?)].
    The table has no constraint besides its generated key, so the
    [INSERT OR IGNORE] of [add_default_apis] never ignores a row and is the
    same statement.  Binding an [api_id] outside the signed 64-bit range
    raises before anything is written. *)
Definition insert_api_config (name : string) (api_id : Z)
    (api_hash : string) : M unit :=
  if fits_int64 api_id then
    let* st := get in
    let id := next_api_id (api_configs st) in
    set_api_configs
      (<[id := mkApiConfig id name api_id api_hash]> (api_configs st))
  else raise overflow_error.

(** [Database.add_api_config] *)
Definition add_api_config (name : string) (api_id : Z) (api_hash : string)
  : M unit :=
  insert_api_config name api_id api_hash.

(** [for x in l: f(x)] *)
Fixpoint for_each {A} (l : list A) (f : A -> M unit) : M unit :=
  match l with
  | [] => pass
  | a :: l' => f a ;; for_each l' f
  end.

(** The literal [default_apis] of [add_default_apis]: name, api_id,
    api_hash. *)
Definition default_api_rows : list (string * Z * string) :=
  [ ("Telegram Desktop", 2040, "b18441a1ff607e10a989891a5462e627");
    ("Android", 6, "eb06d4abfb49dc3eeb1aeb98ae0f581e");
    ("iOS", 4, "014b35b6184100b085b0d0572f9b5103");
    ("Webogram", 2496, "8da85b0d5bfe62527e5b244c209159c3") ].

(** [Database.add_default_apis] *)
Definition add_default_apis : M unit :=
  for_each default_api_rows
    (fun api => insert_api_config api.1.1 api.1.2 api.2).

(** [Database.get_user_sessions]: the user's rows joined with the name of
    their api profile, [ORDER BY created_at DESC].  Rows carry no timestamp
    here; the order the database gives to the selected rows is the argument
    [order].  Of the selected columns, [us.id] and [us.created_at] are not
    represented. *)
Definition get_user_sessions (order : list SessionRow -> list SessionRow)
    (user_id : Z) : M (list (SessionRow * option string)) :=
  let* st := get in
  ret (map (fun row =>
              (row, cfg_name <$> api_configs st !! row_api_config_id row))
           (order (filter (fun row => row_user_id row = user_id)
                          (user_sessions st)))).

(** ** The HTTP routes over the manager *)

(** The JSON answers of [/api/check_session], by their ["status"]. *)
Inductive CheckResponse : Type :=
| StatusWaiting (message : string)
| StatusCompleted (telegram_id : option Z) (phone_number : option string)
| StatusError (error : string).

(** [api_check_session]; the parameter [api_id] is not used by the code. *)
Definition api_check_session (order : list SessionRow -> list SessionRow)
    (user_id api_id : Z) : M CheckResponse :=
  try_except
    (let* st := get in
     match active_qr_sessions st !! user_id with
     | Some _ => ret (StatusWaiting "Ожидание сканирования QR-кода")
     | None =>
         let* user_sessions := get_user_sessions order user_id in
         match user_sessions with
         | latest_session :: _ =>
             ret (StatusCompleted (row_telegram_id latest_session.1)
                                  (row_phone_number latest_session.1))
         | [] => ret (StatusError "Сессия не найдена")
         end
     end)
    (fun e => ret (StatusError (str e))).

(** The JSON answers of [/api/create_session], by their ["success"]. *)
Inductive CreateResponse : Type :=
| CreateSuccess (qr_url : string)
| CreateFailure (error : string).

(** The stand-in message object of [api_create_session]. *)
Definition dummy_msg : Message := 0%nat.

Definition api_create_session (net : CreateNet) (user_id api_id : Z)
  : M CreateResponse :=
  try_except
    (let* r := create_qr_session net user_id api_id dummy_msg in
     let '(success, result) := r in
     if success
     then ret (CreateSuccess
                 ("https://api.qrserver.com/v1/create-qr-code/?size=300x300&data="
                  +:+ result))
     else ret (CreateFailure result))
    (fun e => ret (CreateFailure (str e))).

(** ** The bot's waiting task *)

(** What the bot did in a chat: [message.answer], [edit_text] on the message
    sent as entry [target] of the outbox, and [message.answer_document]. *)
Inductive ChatAction : Type :=
| Answer (chat : Message) (text : string)
| EditText (target : nat) (text : string)
| AnswerDocument (chat : Message) (filename content caption : string).

Record BotState : Type := mkBotState {
  manager : State;             (* self.manager and the database *)
  outbox : list ChatAction }.  (* what was delivered, oldest first *)

Definition BM (A : Type) : Type := BotState -> Res A * BotState.

Definition bret {A} (a : A) : BM A := fun b => (Ok a, b).

Definition braise {A} (e : Exn) : BM A := fun b => (Raise e, b).

Definition bbind {A B} (m : BM A) (k : A -> BM B) : BM B :=
  fun b =>
    match m b with
    | (Ok a, b') => k a b'
    | (Raise e, b') => (Raise e, b')
    end.

Definition btry_except {A} (body : BM A) (handler : Exn -> BM A) : BM A :=
  fun b =>
    match body b with
    | (Ok a, b') => (Ok a, b')
    | (Raise e, b') => handler e b'
    end.

Notation "'let+' x ':=' m 'in' k" := (bbind m (fun x => k))
  (at level 10, x pattern, m at level 100, k at level 200).
Notation "m ';+' k" := (bbind m (fun _ => k))
  (at level 100, k at level 200, right associativity).

(** A call into the manager or the database. *)
Definition lift {A} (m : M A) : BM A :=
  fun b =>
    match m (manager b) with
    | (r, st') => (r, mkBotState st' (outbox b))
    end.

(** A call of the chat api that answers [r]: the action is delivered, and
    its position in the outbox returned, unless the call raises. *)
Definition chat_call (a : ChatAction) (r : Res unit) : BM nat :=
  fun b =>
    match r with
    | Ok _ => (Ok (length (outbox b)),
               mkBotState (manager b) (outbox b ++ [a]))
    | Raise e => (Raise e, b)
    end.

(** The line feed of the message texts. *)
Definition nl : string := String (Ascii.ascii_of_nat 10) "".

(** [bool(x)] for an optional integer and an optional string. *)
Definition truthy_int (x : option Z) : bool :=
  match x with
  | Some z => negb (z =? 0)
  | None => false
  end.

Definition truthy_str (x : option string) : bool :=
  match x with
  | Some s => negb (String.eqb s "")
  | None => false
  end.

(** [str(x)] for an optional integer and an optional string. *)
Definition str_int (x : option Z) : string :=
  match x with
  | Some z => pretty z
  | None => "None"
  end.

Definition str_text (x : option string) : string :=
  match x with
  | Some s => s
  | None => "None"
  end.

(** A byte [10xxxxxx], which continues a UTF-8 character. *)
Definition is_continuation (a : Ascii.ascii) : bool :=
  match a with
  | Ascii.Ascii _ _ _ _ _ _ false true => true
  | _ => false
  end.

(** [s[:n]] on a string held as UTF-8: the first [n] characters. *)
Fixpoint py_prefix (n : nat) (s : string) : string :=
  match s with
  | EmptyString => EmptyString
  | String a s' =>
      if is_continuation a then String a (py_prefix n s')
      else match n with
           | O => EmptyString
           | S n' => String a (py_prefix n' s')
           end
  end.

(** What the chat api does during one [wait_and_send_session], and the text
    Python gives for a result dict. *)
Record SendNet : Type := mkSendNet {
  net_status : Res unit;              (* message.answer, the status line *)
  net_waiting : WaitNet;              (* manager.wait_for_qr_scan *)
  net_edit : Res unit;                (* status_msg.edit_text *)
  net_document : Res unit;            (* message.answer_document *)
  net_preview : Res unit;             (* message.answer, the preview *)
  net_apology : Res unit;             (* message.answer in the handler *)
  net_dict_str : SessionInfo -> string }.

(** [session_info['session_string']]: a dict is subscripted, a string
    raises. *)
Definition as_session_info (result : WaitPayload) : BM SessionInfo :=
  match result with
  | Info i => bret i
  | Text _ =>
      braise (Exception "string indices must be integers, not 'str'")
  end.

(** [f"{result}"] *)
Definition format_result (dict_str : SessionInfo -> string)
    (result : WaitPayload) : string :=
  match result with
  | Text s => s
  | Info i => dict_str i
  end.

Definition session_caption (session_info : SessionInfo) : string :=
  ("✅ <b>Сессия успешно создана!</b>" +:+ nl +:+ nl
   +:+ "🔧 API: " +:+ info_api_name session_info +:+ nl)
  +:+ (if truthy_int (telegram_id session_info)
       then "👤 Telegram ID: <code>"
            +:+ str_int (telegram_id session_info) +:+ "</code>" +:+ nl
       else "")
  +:+ (if truthy_str (phone_number session_info)
       then "📱 Номер: " +:+ str_text (phone_number session_info) +:+ nl
       else "")
  +:+ (nl +:+ "💾 <b>Сохраните этот файл!</b>" +:+ nl
       +:+ "🔒 Он дает полный доступ к аккаунту.").

Definition session_filename (session_info : SessionInfo) : string :=
  "telegram_session_" +:+ str_int (telegram_id session_info) +:+ ".txt".

Definition session_preview (session_info : SessionInfo) : string :=
  "📋 <b>Session String:</b>" +:+ nl
  +:+ "<code>" +:+ py_prefix 100 (session_string session_info)
  +:+ "...</code>" +:+ nl +:+ nl
  +:+ "<i>Полный текст в файле выше</i>".

Definition wait_and_send_session (net : SendNet) (user_id : Z)
    (message : Message) : BM unit :=
  btry_except
    (lift (sleep 2) ;+
     let+ status_msg :=
       chat_call (Answer message "⏳ Ожидаю сканирование QR-кода...")
                 (net_status net) in
     let+ r := lift (wait_for_qr_scan (net_waiting net) user_id) in
     let '(success, result) := r in
     if success then
       chat_call (EditText status_msg "✅ Сессия получена! Отправляю...")
                 (net_edit net) ;+
       let+ session_info := as_session_info result in
       chat_call (AnswerDocument message (session_filename session_info)
                                 (session_string session_info)
                                 (session_caption session_info))
                 (net_document net) ;+
       chat_call (Answer message (session_preview session_info))
                 (net_preview net) ;+
       lift (log_action user_id "session_sent"
                        ("tg_id: " +:+ str_int (telegram_id session_info)))
     else
       chat_call (EditText status_msg
                           ("❌ " +:+ format_result (net_dict_str net) result))
                 (net_edit net) ;+
       lift (log_action user_id "qr_failed"
                        ("reason: "
                         +:+ format_result (net_dict_str net) result)))
    (fun e =>
       btry_except
         (chat_call (Answer message (msg_error e)) (net_apology net) ;+
          bret tt)
         (fun _ => bret tt)).

(** A bot that has sent nothing, over a manager state. *)
Definition bot_over (st : State) : BotState := mkBotState st [].

(** The user a call is made for. *)
Definition call_user (c : Call) : Z :=
  match c with
  | CallCreate _ u _ _ => u
  | CallWait _ u => u
  | CallCleanup _ u => u
  end.

(** No two users' registry entries refer to the same client. *)
Definition registry_clients_distinct (st : State) : Prop :=
  forall u v s1 s2,
    active_qr_sessions st !! u = Some s1 ->
    active_qr_sessions st !! v = Some s2 ->
    client s1 = client s2 -> u = v.

(** The rows of table [user_sessions] that belong to a user. *)
Definition rows_of (st : State) (user_id : Z) : list SessionRow :=
  filter (fun row => row_user_id row = user_id) (user_sessions st).

(** The state after users 1001 and 1002 each opened a handshake. *)
Definition state_two_waiting : State :=
  exec_all [ CallCreate (create_ok "tg://login?token=AQ") 1001 1 0%nat;
             CallCreate (create_ok "tg://login?token=Ag") 1002 2 0%nat ]
           initial_state.

(** The session [state_two_waiting] holds for user 1002. *)
Definition session_second : Session :=
  mkSession 1 "tg://login?token=Ag" 2 "Android" 0 0%nat.

(** The state after user 1001 finished one handshake as account 555 and
    opened another. *)
Definition state_returning : State :=
  exec_all [ CallCreate (create_ok "tg://login?token=AQ") 1001 1 0%nat;
             CallWait (wait_ok (Ok (Some user_555))) 1001;
             CallCreate (create_ok "tg://login?token=Ag") 1001 2 0%nat ]
           initial_state.

(** The session [state_returning] holds for user 1001. *)
Definition session_returning : Session :=
  mkSession 1 "tg://login?token=Ag" 2 "Android" 4 0%nat.

(** A network on which the code is never scanned. *)
Definition wait_never : WaitNet :=
  mkWaitNet NotScanned (Ok true) "1Aa" (Ok None) (Ok tt) (Ok tt).

(** A chat on which every call succeeds, around a given wait. *)
Definition send_ok (w : WaitNet) : SendNet :=
  mkSendNet (Ok tt) w (Ok tt) (Ok tt) (Ok tt) (Ok tt) (fun _ => "").

(** A chat whose user has blocked the bot: every call raises. *)
Definition send_blocked (w : WaitNet) : SendNet :=
  mkSendNet (Raise (Exception "Forbidden: bot was blocked by the user"))
            w
            (Raise (Exception "Forbidden: bot was blocked by the user"))
            (Raise (Exception "Forbidden: bot was blocked by the user"))
            (Raise (Exception "Forbidden: bot was blocked by the user"))
            (Raise (Exception "Forbidden: bot was blocked by the user"))
            (fun _ => "").

(** The number of characters of a string held as UTF-8: its bytes that
    do not continue a character. *)
Fixpoint char_count (s : string) : nat :=
  match s with
  | EmptyString => O
  | String a s' =>
      if is_continuation a then char_count s' else S (char_count s')
  end.

(** ** Proof support *)

(** Evaluates the manager's code: unfolds the monad, the operations and the
    record projections, and nothing of the libraries. *)
Ltac red_manager :=
  lazy beta iota zeta delta
    [wait_for_qr_scan cleanup_session create_qr_session del_session
     store_session save_session log_action disconnect connect
     client_qr_login TelegramClient get_api_by_id wait_for sleep
     is_user_authorized get_me attr_id attr_phone try_except bind get
     pass answer ret raise emit advance set_sessions set_connected
     set_next_client set_user_sessions
     active_qr_sessions api_configs user_sessions connected next_client
     clock trace
     net_scan net_is_authorized net_session_string net_get_me
     net_disconnect net_cleanup_disconnect
     net_old_disconnect net_draw net_connect net_qr_login
     with_get_me with_old_disconnect new_session create_ok
     negb fst snd identity_of saved_events failure_text] in *.

(** Runs the code, using [H1] and [H2] where the run looks something up. *)
Ltac run_with2 H1 H2 :=
  repeat (progress (red_manager; rewrite ?H1, ?H2));
  rewrite <- ?app_assoc.

Ltac run_with H := run_with2 H H.

(** Reads the events of a run off a trace of the form [tr ++ evs]. *)
Ltac read_events :=
  unfold events_since, saved_events, connect_events; simpl;
  rewrite ?drop_app_length; simpl.

(** Counts the disconnects in an explicit list of events. *)
Ltac count_disconnects :=
  unfold disconnects;
  repeat (rewrite filter_cons; case_decide;
          try discriminate; try congruence);
  rewrite ?filter_nil; try reflexivity.

Lemma default_apis_first :
  default_apis !! 1
  = Some (mkApiConfig 1 "Telegram Desktop" 2040
                      "b18441a1ff607e10a989891a5462e627").
Proof. vm_compute. reflexivity. Qed.

Lemma state_waiting_lookup (u : Z) :
  active_qr_sessions (state_waiting u) !! u = Some session_waiting.
Proof.
  assert (Hs : (∅ : gmap Z Session) !! u = None) by apply lookup_empty.
  unfold state_waiting, initial_state.
  run_with2 default_apis_first Hs.
  apply lookup_insert_eq.
Qed.

(** ** Missing profile *)

Lemma create_absent_run
    (net : CreateNet) (u p : Z) (msg : Message) (st : State) :
  api_configs st !! p = None ->
  create_qr_session net u p msg st = (Ok (false, absent_text p), st).
Proof.
  intros Hp. destruct st as [reg apis rows conn next clk tr].
  unfold absent_text. destruct (fits_int64 p) eqn:Hf;
    run_with2 Hp Hf; reflexivity.
Qed.

Lemma msg_error_not_api_not_found (e : Exn) :
  msg_error e <> msg_api_not_found.
Proof.
  unfold msg_error, msg_api_not_found. intros H.
  injection H. intros; discriminate.
Qed.

(** C6, as the code has it: whenever the api profile id is not in the
    profile store, [create_qr_session] returns a failure at once: it makes
    no call to the network (the run appends no event) and leaves the whole
    state as it was; the registry after the call is the registry before it,
    so no session is registered by the call.  The failure is
    profile-not-found when the id is a signed 64-bit integer; for any other
    id it is the generic error with the text of the [OverflowError] of the
    lookup. *)
Theorem create_qr_session_profile_not_found
    (net : CreateNet) (u p : Z) (msg : Message) (st : State) :
  api_configs st !! p = None ->
  let r := create_qr_session net u p msg st in
  (fits_int64 p = true -> fst r = Ok (false, msg_api_not_found)) /\
  (fits_int64 p = false ->
   fst r = Ok (false, msg_error overflow_error) /\
   fst r <> Ok (false, msg_api_not_found)) /\
  snd r = st /\
  active_qr_sessions (snd r) = active_qr_sessions st /\
  events_since st (snd r) = [].
Proof.
  intros Hp r. subst r. rewrite (create_absent_run net u p msg st Hp).
  unfold absent_text. simpl.
  split; [intros ->; reflexivity|].
  split; [intros ->; split; [reflexivity|] |].
  - intros H. apply (msg_error_not_api_not_found overflow_error).
    congruence.
  - repeat split. unfold events_since. apply drop_all.
Qed.

Lemma create_qr_session_profile_not_found_witness :
  api_configs initial_state !! 77 = None /\
  fits_int64 77 = true /\
  let r := create_qr_session (create_ok "tg://login") 9999 77 0%nat
                             initial_state in
  fst r = Ok (false, msg_api_not_found) /\
  snd r = initial_state /\
  active_qr_sessions (snd r) = active_qr_sessions initial_state /\
  events_since initial_state (snd r) = [].
Proof.
  split; [vm_compute; reflexivity |].
  split; [reflexivity |].
  destruct (create_qr_session_profile_not_found
              (create_ok "tg://login") 9999 77 0%nat initial_state)
    as (Hfits & _ & Hst & Hreg & Hevs).
  - vm_compute. reflexivity.
  - split; [apply Hfits; reflexivity |].
    split; [exact Hst |]. split; [exact Hreg | exact Hevs].
Defined.

(** C6 as first stated fails: the id [2 ^ 63] is in no profile store, and a
    call of [create_qr_session] with it on a freshly started bot does not
    return the profile-not-found failure; it returns the generic error with
    the text of the [OverflowError]. *)
Lemma create_with_oversized_id_reports_error :
  ~ (forall (net : CreateNet) (u p : Z) (msg : Message) (st : State),
        api_configs st !! p = None ->
        fst (create_qr_session net u p msg st)
        = Ok (false, msg_api_not_found)).
Proof.
  intros H.
  specialize (H (create_ok "tg://login") 9999 (2 ^ 63) 0%nat initial_state).
  rewrite (create_absent_run _ _ _ _ initial_state) in H
    by (vm_compute; reflexivity).
  specialize (H ltac:(vm_compute; reflexivity)).
  apply (msg_error_not_api_not_found overflow_error).
  unfold absent_text in H. simpl in H. congruence.
Qed.

(** A call that reports the missing profile did find no profile. *)
Lemma create_reports_not_found_inv
    (net : CreateNet) (u p : Z) (msg : Message) (st : State) :
  fst (create_qr_session net u p msg st) = Ok (false, msg_api_not_found) ->
  api_configs st !! p = None.
Proof.
  destruct (api_configs st !! p) as [cfg|] eqn:Hp; [|reflexivity].
  intros Hres. exfalso. revert Hres.
  destruct st as [reg apis rows conn next clk tr].
  destruct net as [od draw co ql].
  destruct (reg !! u) as [old|] eqn:Hs;
    destruct od as [[]|eo]; destruct co as [[]|ec]; destruct ql as [url|eq];
    run_with2 Hp Hs; intros Hres; inversion Hres as [Hm];
    try discriminate;
    exact (msg_error_not_api_not_found _ Hm).
Qed.

(** C10: when a user has a session in flight and a call of
    [create_qr_session] for that user fails with profile-not-found, the
    session is untouched: the state after the call is the state before it, so
    the registry entry is the same, the set of open connections is the same,
    and the call appended no event, in particular no disconnect of the
    session's client. *)
Theorem profile_not_found_leaves_session_untouched
    (net : CreateNet) (u p : Z) (msg : Message) (st : State) (s : Session) :
  active_qr_sessions st !! u = Some s ->
  fst (create_qr_session net u p msg st) = Ok (false, msg_api_not_found) ->
  let st' := snd (create_qr_session net u p msg st) in
  st' = st /\
  active_qr_sessions st' !! u = Some s /\
  connected st' = connected st /\
  disconnects (client s) (events_since st st') = 0%nat.
Proof.
  intros Hs Hres st'.
  assert (Hst : st' = st).
  { subst st'. apply create_reports_not_found_inv in Hres.
    rewrite (create_absent_run _ _ _ _ _ Hres).
    reflexivity. }
  rewrite Hst. repeat split; [exact Hs|].
  unfold events_since. rewrite drop_all. reflexivity.
Qed.

Lemma profile_not_found_leaves_session_untouched_witness :
  active_qr_sessions (state_waiting 1003) !! 1003 = Some session_waiting /\
  let st' := snd (create_qr_session (create_ok "tg://login") 1003 77 0%nat
                                    (state_waiting 1003)) in
  st' = state_waiting 1003 /\
  active_qr_sessions st' !! 1003 = Some session_waiting /\
  connected st' = connected (state_waiting 1003) /\
  disconnects (client session_waiting)
              (events_since (state_waiting 1003) st') = 0%nat.
Proof.
  split; [apply state_waiting_lookup |].
  apply (profile_not_found_leaves_session_untouched
           (create_ok "tg://login") 1003 77 0%nat (state_waiting 1003)
           session_waiting).
  - apply state_waiting_lookup.
  - vm_compute. reflexivity.
Defined.

(** ** The runs of [cleanup_session] *)

Lemma cleanup_session_run (r : Res unit) (u : Z) (st : State) (s : Session) :
  active_qr_sessions st !! u = Some s ->
  cleanup_session r u st
  = (Ok tt,
     mkState (delete u (active_qr_sessions st)) (api_configs st)
             (user_sessions st)
             (match r with
              | Ok _ => connected st ∖ {[client s]}
              | Raise _ => connected st
              end)
             (next_client st) (clock st)
             (trace st ++ [EvDisconnect (client s); EvDelete u])).
Proof.
  intros Hs. destruct st as [reg apis rows conn next clk tr].
  destruct r as [[]|e]; run_with Hs; reflexivity.
Qed.

Lemma cleanup_session_absent (r : Res unit) (u : Z) (st : State) :
  active_qr_sessions st !! u = None ->
  cleanup_session r u st = (Ok tt, st).
Proof.
  intros Hs. destruct st as [reg apis rows conn next clk tr].
  run_with Hs. reflexivity.
Qed.

(** ** The runs of [wait_for_qr_scan] *)

Lemma wait_absent_run (net : WaitNet) (u : Z) (st : State) :
  active_qr_sessions st !! u = None ->
  wait_for_qr_scan net u st = (Ok (false, Text msg_session_not_found), st).
Proof.
  intros Hs. destruct st as [reg apis rows conn next clk tr].
  run_with Hs. reflexivity.
Qed.

Lemma wait_timeout_run
    (net : WaitNet) (u : Z) (st : State) (data : Session) :
  active_qr_sessions st !! u = Some data ->
  no_scan_within 120 (net_scan net) ->
  wait_for_qr_scan net u st
  = (Ok (false, Text msg_timeout),
     mkState (delete u (active_qr_sessions st)) (api_configs st)
             (user_sessions st)
             (match net_cleanup_disconnect net with
              | Ok _ => connected st ∖ {[client data]}
              | Raise _ => connected st
              end)
             (next_client st) (clock st + 120)%nat
             (trace st ++ [EvWaitFor (client data) 120;
                           EvDisconnect (client data); EvDelete u])).
Proof.
  intros Hs Hw. destruct st as [reg apis rows conn next clk tr].
  destruct net as [scan auth blob me disc cdisc].
  red_manager.
  assert (Hlt : forall t, (120 <= t)%nat -> (t <? 120)%nat = false)
    by (intros t Ht; apply Nat.ltb_ge; exact Ht).
  destruct scan as [t| |t e]; unfold no_scan_within in Hw;
    try specialize (Hlt t Hw);
    destruct cdisc as [[]|ec];
    run_with2 Hs Hlt; reflexivity.
Qed.

Lemma wait_scan_error_run
    (net : WaitNet) (u : Z) (st : State) (data : Session) (t : nat)
    (e : Exn) :
  active_qr_sessions st !! u = Some data ->
  net_scan net = ScanFails t e -> (t < 120)%nat ->
  wait_for_qr_scan net u st
  = (Ok (false, Text (failure_text e)),
     mkState (delete u (active_qr_sessions st)) (api_configs st)
             (user_sessions st)
             (match net_cleanup_disconnect net with
              | Ok _ => connected st ∖ {[client data]}
              | Raise _ => connected st
              end)
             (next_client st) (clock st + t)%nat
             (trace st ++ [EvWaitFor (client data) 120;
                           EvDisconnect (client data); EvDelete u])).
Proof.
  intros Hs Hscan Ht. destruct st as [reg apis rows conn next clk tr].
  destruct net as [scan auth blob me disc cdisc].
  red_manager. subst scan. apply Nat.ltb_lt in Ht.
  destruct e; destruct cdisc as [[]|ec]; run_with2 Hs Ht; reflexivity.
Qed.

Lemma wait_auth_error_run
    (net : WaitNet) (u : Z) (st : State) (data : Session) (t : nat)
    (e : Exn) :
  active_qr_sessions st !! u = Some data ->
  net_scan net = Scanned t -> (t < 120)%nat ->
  net_is_authorized net = Raise e ->
  wait_for_qr_scan net u st
  = (Ok (false, Text (failure_text e)),
     mkState (delete u (active_qr_sessions st)) (api_configs st)
             (user_sessions st)
             (match net_cleanup_disconnect net with
              | Ok _ => connected st ∖ {[client data]}
              | Raise _ => connected st
              end)
             (next_client st) (clock st + t + 3)%nat
             (trace st ++ [EvWaitFor (client data) 120; EvSleep 3;
                           EvIsUserAuthorized (client data);
                           EvDisconnect (client data); EvDelete u])).
Proof.
  intros Hs Hscan Ht Hauth. destruct st as [reg apis rows conn next clk tr].
  destruct net as [scan auth blob me disc cdisc].
  red_manager. subst scan auth. apply Nat.ltb_lt in Ht.
  destruct e; destruct cdisc as [[]|ec]; run_with2 Hs Ht; reflexivity.
Qed.

(** What [wait_for_qr_scan] does when the scanned login is not authorized. *)
Lemma wait_unauthorized_run
    (net : WaitNet) (u : Z) (st : State) (data : Session) (t : nat) :
  active_qr_sessions st !! u = Some data ->
  net_scan net = Scanned t -> (t < 120)%nat ->
  net_is_authorized net = Ok false ->
  wait_for_qr_scan net u st
  = (Ok (false, Text msg_not_authorized),
     mkState (active_qr_sessions st) (api_configs st) (user_sessions st)
             (connected st) (next_client st) (clock st + t + 3)%nat
             (trace st ++ [EvWaitFor (client data) 120; EvSleep 3;
                           EvIsUserAuthorized (client data)])).
Proof.
  intros Hs Hscan Ht Hauth. destruct st as [reg apis rows conn next clk tr].
  destruct net as [scan auth blob me disc cdisc].
  red_manager. subst scan auth. apply Nat.ltb_lt in Ht.
  run_with2 Hs Ht; reflexivity.
Qed.

Lemma wait_confirmed_run
    (net : WaitNet) (u : Z) (st : State) (data : Session) (t : nat) :
  active_qr_sessions st !! u = Some data ->
  net_scan net = Scanned t -> (t < 120)%nat ->
  net_is_authorized net = Ok true ->
  net_disconnect net = Ok tt ->
  let ident := identity_of (net_get_me net) in
  wait_for_qr_scan net u st
  = (Ok (true, Info (mkSessionInfo (net_session_string net) ident.1 ident.2
                                   (api_name data))),
     mkState (delete u (active_qr_sessions st)) (api_configs st)
             (mkSessionRow u ident.1 ident.2 (net_session_string net)
                           (api_config_id data) :: user_sessions st)
             (connected st ∖ {[client data]})
             (next_client st) (clock st + t + 3)%nat
             (trace st ++ saved_events u data (net_session_string net) ident
                       ++ [EvDisconnect (client data); EvDelete u])).
Proof.
  intros Hs Hscan Ht Hauth Hdisc.
  destruct st as [reg apis rows conn next clk tr].
  destruct net as [scan auth blob me disc cdisc].
  red_manager. subst scan auth disc. apply Nat.ltb_lt in Ht.
  destruct me as [[me|]|em]; run_with2 Hs Ht; reflexivity.
Qed.

(** What [wait_for_qr_scan] does when the disconnect that follows the save
    raises. *)
Lemma wait_disconnect_error_run
    (net : WaitNet) (u : Z) (st : State) (data : Session) (t : nat)
    (e : Exn) :
  active_qr_sessions st !! u = Some data ->
  net_scan net = Scanned t -> (t < 120)%nat ->
  net_is_authorized net = Ok true ->
  net_disconnect net = Raise e ->
  let ident := identity_of (net_get_me net) in
  wait_for_qr_scan net u st
  = (Ok (false, Text (failure_text e)),
     mkState (delete u (active_qr_sessions st)) (api_configs st)
             (mkSessionRow u ident.1 ident.2 (net_session_string net)
                           (api_config_id data) :: user_sessions st)
             (match net_cleanup_disconnect net with
              | Ok _ => connected st ∖ {[client data]}
              | Raise _ => connected st
              end)
             (next_client st) (clock st + t + 3)%nat
             (trace st ++ saved_events u data (net_session_string net) ident
                       ++ [EvDisconnect (client data);
                           EvDisconnect (client data); EvDelete u])).
Proof.
  intros Hs Hscan Ht Hauth Hdisc.
  destruct st as [reg apis rows conn next clk tr].
  destruct net as [scan auth blob me disc cdisc].
  red_manager. subst scan auth disc. apply Nat.ltb_lt in Ht.
  destruct me as [[me|]|em]; destruct e; destruct cdisc as [[]|ec];
    run_with2 Hs Ht; reflexivity.
Qed.

(** ** The bounded wait *)

(** C4: when a session is in flight and no scan is seen before the deadline
    (in particular when the scan never comes), [wait_for_qr_scan] waits with
    a timeout of 120 seconds, which is the time that passes, and returns the
    timeout failure; afterwards the registry has no entry for the user, and
    the session's client was disconnected exactly once (the only events of
    the run are the bounded wait, that disconnect and the removal). *)
Theorem wait_for_qr_scan_timeout
    (net : WaitNet) (u : Z) (st : State) (data : Session) :
  active_qr_sessions st !! u = Some data ->
  no_scan_within 120 (net_scan net) ->
  let r := wait_for_qr_scan net u st in
  fst r = Ok (false, Text msg_timeout) /\
  clock (snd r) = (clock st + 120)%nat /\
  active_qr_sessions (snd r) !! u = None /\
  events_since st (snd r)
  = [EvWaitFor (client data) 120; EvDisconnect (client data); EvDelete u] /\
  disconnects (client data) (events_since st (snd r)) = 1%nat.
Proof.
  intros Hs Hw r. subst r. rewrite (wait_timeout_run _ _ _ _ Hs Hw).
  read_events. repeat split.
  - apply lookup_delete_eq.
  - count_disconnects.
Qed.

Lemma wait_for_qr_scan_timeout_witness :
  active_qr_sessions (state_waiting 1002) !! 1002 = Some session_waiting /\
  no_scan_within 120 NotScanned /\
  let r := wait_for_qr_scan
             (mkWaitNet NotScanned (Ok true) "1Aa" (Ok None) (Ok tt) (Ok tt))
             1002 (state_waiting 1002) in
  fst r = Ok (false, Text msg_timeout) /\
  clock (snd r) = (clock (state_waiting 1002) + 120)%nat /\
  active_qr_sessions (snd r) !! 1002 = None /\
  events_since (state_waiting 1002) (snd r)
  = [EvWaitFor (client session_waiting) 120;
     EvDisconnect (client session_waiting); EvDelete 1002] /\
  disconnects (client session_waiting)
              (events_since (state_waiting 1002) (snd r)) = 1%nat.
Proof.
  split; [apply state_waiting_lookup |].
  split; [exact I |].
  apply (wait_for_qr_scan_timeout
           (mkWaitNet NotScanned (Ok true) "1Aa" (Ok None) (Ok tt) (Ok tt))
           1002 (state_waiting 1002) session_waiting).
  - apply state_waiting_lookup.
  - exact I.
Defined.

(** ** The scanned code *)

(** A run that returns a session went through every step of the success
    path. *)
Lemma wait_confirmed_inv
    (net : WaitNet) (u : Z) (st : State) (info : SessionInfo) :
  fst (wait_for_qr_scan net u st) = Ok (true, Info info) ->
  exists data t,
    active_qr_sessions st !! u = Some data /\
    net_scan net = Scanned t /\ (t < 120)%nat /\
    net_is_authorized net = Ok true /\
    net_disconnect net = Ok tt.
Proof.
  destruct (active_qr_sessions st !! u) as [data|] eqn:Hs.
  2: { rewrite (wait_absent_run _ _ _ Hs). discriminate. }
  assert (Hto : no_scan_within 120 (net_scan net) ->
                fst (wait_for_qr_scan net u st) <> Ok (true, Info info)).
  { intros Hw. rewrite (wait_timeout_run _ _ _ _ Hs Hw). discriminate. }
  intros Hres. exists data.
  destruct (net_scan net) as [t| |t e] eqn:Hscan.
  - destruct (Nat.lt_ge_cases t 120) as [Ht|Ht];
      [| exfalso; exact (Hto Ht Hres)].
    exists t.
    destruct (net_is_authorized net) as [[|]|ea] eqn:Hauth.
    + destruct (net_disconnect net) as [[]|ed] eqn:Hdisc; [auto|].
      pose proof (wait_disconnect_error_run net u st data t ed
                    Hs Hscan Ht Hauth Hdisc) as Hrun.
      cbv zeta in Hrun. rewrite Hrun in Hres. discriminate.
    + rewrite (wait_unauthorized_run net u st data t Hs Hscan Ht Hauth)
        in Hres. discriminate.
    + rewrite (wait_auth_error_run net u st data t ea Hs Hscan Ht Hauth)
        in Hres. discriminate.
  - exfalso. exact (Hto I Hres).
  - destruct (Nat.lt_ge_cases t 120) as [Ht|Ht];
      [| exfalso; exact (Hto Ht Hres)].
    rewrite (wait_scan_error_run net u st data t e Hs Hscan Ht) in Hres.
    discriminate.
Qed.

(** C9: whenever [wait_for_qr_scan] returns a session, the row with that
    session string was inserted by [save_session] before the client was
    disconnected and before the registry entry was deleted: the events of
    the run are wait, sleep, authorization check, identity fetch, save (with
    its log line), disconnect, delete, in this order, and the table holds
    the row. *)
Theorem confirmed_saved_before_teardown
    (net : WaitNet) (u : Z) (st : State) (info : SessionInfo) :
  fst (wait_for_qr_scan net u st) = Ok (true, Info info) ->
  let st' := snd (wait_for_qr_scan net u st) in
  exists data row,
    active_qr_sessions st !! u = Some data /\
    row = mkSessionRow u (telegram_id info) (phone_number info)
                       (session_string info) (api_config_id data) /\
    user_sessions st' = row :: user_sessions st /\
    events_since st st'
    = [ EvWaitFor (client data) 120; EvSleep 3;
        EvIsUserAuthorized (client data); EvGetMe (client data);
        EvSaveSession row;
        EvLogAction u "session_created"
                    ("api_config_id: " +:+ pretty (api_config_id data));
        EvDisconnect (client data); EvDelete u ] /\
    precedes (EvSaveSession row) (EvDisconnect (client data))
             (events_since st st') /\
    precedes (EvSaveSession row) (EvDelete u) (events_since st st') /\
    active_qr_sessions st' !! u = None.
Proof.
  intros Hres st'.
  destruct (wait_confirmed_inv _ _ _ _ Hres)
    as (data & t & Hs & Hscan & Ht & Hauth & Hdisc).
  pose proof (wait_confirmed_run net u st data t Hs Hscan Ht Hauth Hdisc)
    as Hrun.
  cbv zeta in Hrun. subst st'. rewrite Hrun in Hres |- *.
  simpl in Hres. injection Hres as <-.
  exists data. eexists. split; [exact Hs|]. split; [reflexivity|].
  split; [reflexivity|].
  read_events.
  split; [reflexivity|].
  split; [|split].
  - exists [ EvWaitFor (client data) 120; EvSleep 3;
             EvIsUserAuthorized (client data); EvGetMe (client data) ],
           [EvLogAction u "session_created"
              ("api_config_id: " +:+ pretty (api_config_id data))],
           [EvDelete u].
    reflexivity.
  - exists [ EvWaitFor (client data) 120; EvSleep 3;
             EvIsUserAuthorized (client data); EvGetMe (client data) ],
           [EvLogAction u "session_created"
              ("api_config_id: " +:+ pretty (api_config_id data));
            EvDisconnect (client data)],
           [].
    reflexivity.
  - apply lookup_delete_eq.
Qed.

Lemma confirmed_saved_before_teardown_witness :
  fst (wait_for_qr_scan (wait_ok (Ok (Some user_555))) 1001
                        (state_waiting 1001))
  = Ok (true, Info (mkSessionInfo "1Aa" (Some 555) (Some "+1555")
                                  "Telegram Desktop")) /\
  exists data row,
    active_qr_sessions (state_waiting 1001) !! 1001 = Some data /\
    row = mkSessionRow 1001 (Some 555) (Some "+1555") "1Aa"
                       (api_config_id data) /\
    user_sessions (snd (wait_for_qr_scan (wait_ok (Ok (Some user_555))) 1001
                                         (state_waiting 1001)))
    = row :: user_sessions (state_waiting 1001) /\
    events_since (state_waiting 1001)
                 (snd (wait_for_qr_scan (wait_ok (Ok (Some user_555))) 1001
                                        (state_waiting 1001)))
    = [ EvWaitFor (client data) 120; EvSleep 3;
        EvIsUserAuthorized (client data); EvGetMe (client data);
        EvSaveSession row;
        EvLogAction 1001 "session_created"
                    ("api_config_id: " +:+ pretty (api_config_id data));
        EvDisconnect (client data); EvDelete 1001 ] /\
    precedes (EvSaveSession row) (EvDisconnect (client data))
      (events_since (state_waiting 1001)
         (snd (wait_for_qr_scan (wait_ok (Ok (Some user_555))) 1001
                                (state_waiting 1001)))) /\
    precedes (EvSaveSession row) (EvDelete 1001)
      (events_since (state_waiting 1001)
         (snd (wait_for_qr_scan (wait_ok (Ok (Some user_555))) 1001
                                (state_waiting 1001)))) /\
    active_qr_sessions
      (snd (wait_for_qr_scan (wait_ok (Ok (Some user_555))) 1001
                             (state_waiting 1001))) !! 1001 = None.
Proof.
  split; [vm_compute; reflexivity |].
  apply (confirmed_saved_before_teardown
           (wait_ok (Ok (Some user_555))) 1001 (state_waiting 1001)
           (mkSessionInfo "1Aa" (Some 555) (Some "+1555")
                          "Telegram Desktop")).
  vm_compute. reflexivity.
Defined.

(** C5: take a handshake that [wait_for_qr_scan] confirms for some answer
    of the identity fetch.  With the identity fetch raising instead, the
    same handshake is still confirmed: the call returns the same session
    string and profile name, with [telegram_id] and [phone_number] both
    [None]. *)
Theorem identity_failure_keeps_confirmed
    (net : WaitNet) (u : Z) (st : State) (r : Res (option User)) (e : Exn)
    (info : SessionInfo) :
  fst (wait_for_qr_scan (with_get_me net r) u st) = Ok (true, Info info) ->
  fst (wait_for_qr_scan (with_get_me net (Raise e)) u st)
  = Ok (true, Info (mkSessionInfo (session_string info) None None
                                  (info_api_name info))).
Proof.
  intros Hres.
  destruct (wait_confirmed_inv _ _ _ _ Hres)
    as (data & t & Hs & Hscan & Ht & Hauth & Hdisc).
  pose proof (wait_confirmed_run (with_get_me net r) u st data t
                                 Hs Hscan Ht Hauth Hdisc) as Hrun.
  pose proof (wait_confirmed_run (with_get_me net (Raise e)) u st data t
                                 Hs Hscan Ht Hauth Hdisc) as Hfail.
  cbv zeta in Hrun, Hfail. rewrite Hrun in Hres. rewrite Hfail.
  simpl in Hres |- *. injection Hres as <-. reflexivity.
Qed.

Lemma identity_failure_keeps_confirmed_witness :
  fst (wait_for_qr_scan (with_get_me (wait_ok (Ok None))
                                     (Ok (Some user_555)))
                        1001 (state_waiting 1001))
  = Ok (true, Info (mkSessionInfo "1Aa" (Some 555) (Some "+1555")
                                  "Telegram Desktop")) /\
  fst (wait_for_qr_scan (with_get_me (wait_ok (Ok None))
                                     (Raise (Exception "FloodWaitError")))
                        1001 (state_waiting 1001))
  = Ok (true, Info (mkSessionInfo "1Aa" None None "Telegram Desktop")).
Proof.
  split; [vm_compute; reflexivity |].
  apply (identity_failure_keeps_confirmed
           (wait_ok (Ok None)) 1001 (state_waiting 1001)
           (Ok (Some user_555)) (Exception "FloodWaitError")
           (mkSessionInfo "1Aa" (Some 555) (Some "+1555")
                          "Telegram Desktop")).
  vm_compute. reflexivity.
Defined.

(** Every run of [wait_for_qr_scan] on a session in flight that does not end
    in the not-authorized return disconnects the session's client and
    empties the user's registry slot. *)
Lemma wait_cleans_up_unless_unauthorized
    (net : WaitNet) (u : Z) (st : State) (data : Session) :
  active_qr_sessions st !! u = Some data ->
  fst (wait_for_qr_scan net u st) <> Ok (false, Text msg_not_authorized) ->
  let st' := snd (wait_for_qr_scan net u st) in
  active_qr_sessions st' !! u = None /\
  (1 <= disconnects (client data) (events_since st st'))%nat.
Proof.
  intros Hs Hres st'. subst st'.
  assert (Hto : no_scan_within 120 (net_scan net) ->
    active_qr_sessions (snd (wait_for_qr_scan net u st)) !! u = None /\
    (1 <= disconnects (client data)
            (events_since st (snd (wait_for_qr_scan net u st))))%nat).
  { intros Hw. rewrite (wait_timeout_run _ _ _ _ Hs Hw). read_events.
    split; [apply lookup_delete_eq|]. count_disconnects. }
  destruct (net_scan net) as [t| |t e] eqn:Hscan.
  - destruct (Nat.lt_ge_cases t 120) as [Ht|Ht]; [| exact (Hto Ht)].
    destruct (net_is_authorized net) as [[|]|ea] eqn:Hauth.
    + destruct (net_disconnect net) as [[]|ed] eqn:Hdisc.
      * pose proof (wait_confirmed_run net u st data t
                      Hs Hscan Ht Hauth Hdisc) as Hrun.
        cbv zeta in Hrun. rewrite Hrun. read_events.
        split; [apply lookup_delete_eq|]. count_disconnects.
      * pose proof (wait_disconnect_error_run net u st data t ed
                      Hs Hscan Ht Hauth Hdisc) as Hrun.
        cbv zeta in Hrun. rewrite Hrun. read_events.
        split; [apply lookup_delete_eq|]. count_disconnects. simpl. lia.
    + exfalso. apply Hres.
      rewrite (wait_unauthorized_run net u st data t Hs Hscan Ht Hauth).
      reflexivity.
    + rewrite (wait_auth_error_run net u st data t ea Hs Hscan Ht Hauth).
      read_events. split; [apply lookup_delete_eq|]. count_disconnects.
  - exact (Hto I).
  - destruct (Nat.lt_ge_cases t 120) as [Ht|Ht]; [| exact (Hto Ht)].
    rewrite (wait_scan_error_run net u st data t e Hs Hscan Ht).
    read_events. split; [apply lookup_delete_eq|]. count_disconnects.
Qed.

(** C1 (the code departs from it): when the code is scanned in time but the
    login is then found not authorized, [wait_for_qr_scan] returns its
    failure without any cleanup: the session is still in the registry, the
    set of open connections is unchanged, and no disconnect of the session's
    client was invoked.  Every other outcome does clean up
    ([wait_cleans_up_unless_unauthorized]). *)
Theorem unauthorized_scan_skips_cleanup
    (net : WaitNet) (u : Z) (st : State) (data : Session) (t : nat) :
  active_qr_sessions st !! u = Some data ->
  net_scan net = Scanned t -> (t < 120)%nat ->
  net_is_authorized net = Ok false ->
  let r := wait_for_qr_scan net u st in
  fst r = Ok (false, Text msg_not_authorized) /\
  active_qr_sessions (snd r) !! u = Some data /\
  connected (snd r) = connected st /\
  disconnects (client data) (events_since st (snd r)) = 0%nat.
Proof.
  intros Hs Hscan Ht Hauth r. subst r.
  rewrite (wait_unauthorized_run net u st data t Hs Hscan Ht Hauth).
  read_events.
  split; [reflexivity|]. split; [exact Hs|]. split; [reflexivity|].
  count_disconnects.
Qed.

Lemma unauthorized_scan_skips_cleanup_witness :
  active_qr_sessions (state_waiting 1001) !! 1001 = Some session_waiting /\
  net_scan wait_unauthorized = Scanned 1 /\ (1 < 120)%nat /\
  net_is_authorized wait_unauthorized = Ok false /\
  fst (wait_for_qr_scan wait_unauthorized 1001 (state_waiting 1001))
  = Ok (false, Text msg_not_authorized) /\
  active_qr_sessions (snd (wait_for_qr_scan wait_unauthorized 1001
                                            (state_waiting 1001))) !! 1001
  = Some session_waiting /\
  connected (snd (wait_for_qr_scan wait_unauthorized 1001
                                   (state_waiting 1001)))
  = connected (state_waiting 1001) /\
  disconnects (client session_waiting)
    (events_since (state_waiting 1001)
       (snd (wait_for_qr_scan wait_unauthorized 1001 (state_waiting 1001))))
  = 0%nat.
Proof.
  split; [apply state_waiting_lookup |].
  split; [reflexivity |]. split; [lia |]. split; [reflexivity |].
  apply (unauthorized_scan_skips_cleanup
           wait_unauthorized 1001 (state_waiting 1001) session_waiting 1).
  - apply state_waiting_lookup.
  - reflexivity.
  - lia.
  - reflexivity.
Defined.

(** C7 (the code departs from it): when the scan is seen and authorized and
    the session has been saved, an error raised by the disconnect that
    follows is not swallowed: [wait_for_qr_scan] returns a failure carrying
    the text of that error, although the session row is in the table.  The
    disconnect of [cleanup_session] does swallow its error
    ([cleanup_session_run]), and so does the one of the eviction in
    [create_qr_session]. *)
Theorem disconnect_error_after_save_reported
    (net : WaitNet) (u : Z) (st : State) (data : Session) (t : nat)
    (e : Exn) :
  active_qr_sessions st !! u = Some data ->
  net_scan net = Scanned t -> (t < 120)%nat ->
  net_is_authorized net = Ok true ->
  net_disconnect net = Raise e ->
  let r := wait_for_qr_scan net u st in
  let ident := identity_of (net_get_me net) in
  fst r = Ok (false, Text (failure_text e)) /\
  user_sessions (snd r)
  = mkSessionRow u ident.1 ident.2 (net_session_string net)
                 (api_config_id data) :: user_sessions st.
Proof.
  intros Hs Hscan Ht Hauth Hdisc r ident. subst r ident.
  pose proof (wait_disconnect_error_run net u st data t e
                Hs Hscan Ht Hauth Hdisc) as Hrun.
  cbv zeta in Hrun. rewrite Hrun. split; reflexivity.
Qed.

Lemma disconnect_error_after_save_reported_witness :
  active_qr_sessions (state_waiting 1001) !! 1001 = Some session_waiting /\
  net_scan wait_disconnect_fails = Scanned 1 /\ (1 < 120)%nat /\
  net_is_authorized wait_disconnect_fails = Ok true /\
  net_disconnect wait_disconnect_fails
  = Raise (Exception "Cannot send requests while disconnected") /\
  fst (wait_for_qr_scan wait_disconnect_fails 1001 (state_waiting 1001))
  = Ok (false,
        Text (failure_text
                (Exception "Cannot send requests while disconnected"))) /\
  user_sessions (snd (wait_for_qr_scan wait_disconnect_fails 1001
                                       (state_waiting 1001)))
  = mkSessionRow 1001 (Some 555) (Some "+1555") "1Aa" 1
    :: user_sessions (state_waiting 1001).
Proof.
  split; [apply state_waiting_lookup |].
  split; [reflexivity |]. split; [lia |].
  split; [reflexivity |]. split; [reflexivity |].
  apply (disconnect_error_after_save_reported
           wait_disconnect_fails 1001 (state_waiting 1001) session_waiting 1
           (Exception "Cannot send requests while disconnected")).
  - apply state_waiting_lookup.
  - reflexivity.
  - lia.
  - reflexivity.
  - reflexivity.
Defined.

(** ** The runs of [create_qr_session] with a known profile *)

Lemma create_connect_error_run
    (net : CreateNet) (u p : Z) (msg : Message) (st : State)
    (cfg : ApiConfig) (e : Exn) :
  api_configs st !! p = Some cfg ->
  net_connect net = Raise e ->
  create_qr_session net u p msg st
  = (Ok (false, msg_error e),
     mkState (active_qr_sessions st) (api_configs st) (user_sessions st)
             (connected_after_eviction st u (net_old_disconnect net))
             (S (next_client st)) (clock st)
             (trace st ++ eviction_events st u
                       ++ connect_events st cfg (net_draw net))).
Proof.
  intros Hp Hco. destruct st as [reg apis rows conn next clk tr].
  destruct net as [od draw co ql]. red_manager. subst co.
  unfold eviction_events, connected_after_eviction, connect_events.
  destruct (reg !! u) as [old|] eqn:Hs; destruct od as [[]|eo];
    run_with2 Hp Hs; rewrite ?app_nil_r; reflexivity.
Qed.

Lemma create_login_error_run
    (net : CreateNet) (u p : Z) (msg : Message) (st : State)
    (cfg : ApiConfig) (e : Exn) :
  api_configs st !! p = Some cfg ->
  net_connect net = Ok tt ->
  net_qr_login net = Raise e ->
  create_qr_session net u p msg st
  = (Ok (false, msg_error e),
     mkState (active_qr_sessions st) (api_configs st) (user_sessions st)
             ({[next_client st]}
              ∪ connected_after_eviction st u (net_old_disconnect net))
             (S (next_client st)) (clock st)
             (trace st ++ eviction_events st u
                       ++ connect_events st cfg (net_draw net)
                       ++ [EvQrLogin (next_client st)])).
Proof.
  intros Hp Hco Hql. destruct st as [reg apis rows conn next clk tr].
  destruct net as [od draw co ql]. red_manager. subst co ql.
  unfold eviction_events, connected_after_eviction, connect_events.
  destruct (reg !! u) as [old|] eqn:Hs; destruct od as [[]|eo];
    run_with2 Hp Hs; rewrite ?app_nil_r; reflexivity.
Qed.

Lemma create_success_run
    (net : CreateNet) (u p : Z) (msg : Message) (st : State)
    (cfg : ApiConfig) (url : string) :
  api_configs st !! p = Some cfg ->
  net_connect net = Ok tt ->
  net_qr_login net = Ok url ->
  create_qr_session net u p msg st
  = (Ok (true, url),
     mkState (<[u := new_session st url p cfg msg]> (active_qr_sessions st))
             (api_configs st) (user_sessions st)
             ({[next_client st]}
              ∪ connected_after_eviction st u (net_old_disconnect net))
             (S (next_client st)) (clock st)
             (trace st ++ eviction_events st u
                       ++ connect_events st cfg (net_draw net)
                       ++ [EvQrLogin (next_client st);
                           EvStore u (next_client st);
                           EvLogAction u "qr_created"
                                       ("api: " +:+ cfg_name cfg)])).
Proof.
  intros Hp Hco Hql. destruct st as [reg apis rows conn next clk tr].
  destruct net as [od draw co ql]. red_manager. subst co ql.
  unfold eviction_events, connected_after_eviction, connect_events.
  destruct (reg !! u) as [old|] eqn:Hs; destruct od as [[]|eo];
    run_with2 Hp Hs; rewrite ?app_nil_r; reflexivity.
Qed.

(** ** Opening a handshake *)

Lemma eviction_events_some (st : State) (u : Z) (old : Session) :
  active_qr_sessions st !! u = Some old ->
  eviction_events st u = [EvDisconnect (client old)].
Proof. intros Hs. unfold eviction_events. rewrite Hs. reflexivity. Qed.

(** C3, as the code has it: when a user has a session in flight and the api
    profile id resolves, [create_qr_session] invokes the disconnect of the
    old session's client exactly once, as the first thing it does to the
    outside world; no other disconnect is made; when the call succeeds, the
    new session is stored after that disconnect and is then the user's
    registry entry.  Whether the disconnect raises has no influence on what
    the call returns. *)
Theorem create_disconnects_prior_once
    (net : CreateNet) (u p : Z) (msg : Message) (st : State)
    (old : Session) (cfg : ApiConfig) :
  active_qr_sessions st !! u = Some old ->
  api_configs st !! p = Some cfg ->
  let r := create_qr_session net u p msg st in
  let evs := events_since st (snd r) in
  (exists rest, evs = EvDisconnect (client old) :: rest /\
                forall c, disconnects c rest = 0%nat) /\
  disconnects (client old) evs = 1%nat /\
  (forall url, fst r = Ok (true, url) ->
     precedes (EvDisconnect (client old)) (EvStore u (next_client st)) evs /\
     active_qr_sessions (snd r) !! u
     = Some (new_session st url p cfg msg)) /\
  fst r = fst (create_qr_session (with_old_disconnect net (Ok tt))
                                 u p msg st).
Proof.
  intros Hs Hp r evs. subst evs r.
  pose proof (eviction_events_some st u old Hs) as Hev.
  destruct (net_connect net) as [[]|ec] eqn:Hco;
    [destruct (net_qr_login net) as [url|eq] eqn:Hql |].
  - rewrite (create_success_run net u p msg st cfg url Hp Hco Hql).
    rewrite (create_success_run (with_old_disconnect net (Ok tt))
                                u p msg st cfg url Hp Hco Hql).
    rewrite Hev. read_events.
    split; [eexists; split; [reflexivity | intros c; count_disconnects] |].
    split; [count_disconnects |].
    split; [| reflexivity].
    intros url' Hres. injection Hres as <-.
    split; [| apply lookup_insert_eq].
    exists [], (connect_events st cfg (net_draw net)
                ++ [EvQrLogin (next_client st)]),
           [EvLogAction u "qr_created" ("api: " +:+ cfg_name cfg)].
    reflexivity.
  - rewrite (create_login_error_run net u p msg st cfg eq Hp Hco Hql).
    rewrite (create_login_error_run (with_old_disconnect net (Ok tt))
                                    u p msg st cfg eq Hp Hco Hql).
    rewrite Hev. read_events.
    split; [eexists; split; [reflexivity | intros c; count_disconnects] |].
    split; [count_disconnects |].
    split; [| reflexivity].
    intros url' Hres. discriminate Hres.
  - rewrite (create_connect_error_run net u p msg st cfg ec Hp Hco).
    rewrite (create_connect_error_run (with_old_disconnect net (Ok tt))
                                      u p msg st cfg ec Hp Hco).
    rewrite Hev. read_events.
    split; [eexists; split; [reflexivity | intros c; count_disconnects] |].
    split; [count_disconnects |].
    split; [| reflexivity].
    intros url' Hres. discriminate Hres.
Qed.

Lemma create_disconnects_prior_once_witness :
  active_qr_sessions (state_waiting 1003) !! 1003 = Some session_waiting /\
  api_configs (state_waiting 1003) !! 2
  = Some (mkApiConfig 2 "Android" 6 "eb06d4abfb49dc3eeb1aeb98ae0f581e") /\
  disconnects (client session_waiting)
    (events_since (state_waiting 1003)
       (snd (create_qr_session (create_ok "tg://login?token=Ag") 1003 2
                               0%nat (state_waiting 1003)))) = 1%nat.
Proof.
  split; [apply state_waiting_lookup |].
  split; [vm_compute; reflexivity |].
  apply (create_disconnects_prior_once
           (create_ok "tg://login?token=Ag") 1003 2 0%nat
           (state_waiting 1003) session_waiting
           (mkApiConfig 2 "Android" 6 "eb06d4abfb49dc3eeb1aeb98ae0f581e")).
  - apply state_waiting_lookup.
  - vm_compute. reflexivity.
Defined.

(** C3 as first stated fails: with a session in flight for user 1003, a call
    of [create_qr_session] for that user with an api profile id that is not
    in the store invokes no disconnect at all. *)
Lemma create_without_profile_disconnects_nothing :
  ~ (forall (net : CreateNet) (u p : Z) (msg : Message) (st : State)
            (old : Session),
        active_qr_sessions st !! u = Some old ->
        disconnects (client old)
          (events_since st (snd (create_qr_session net u p msg st)))
        = 1%nat).
Proof.
  intros H.
  specialize (H (create_ok "tg://login?token=Ag") 1003 77 0%nat
                (state_waiting 1003) session_waiting
                (state_waiting_lookup 1003)).
  vm_compute in H. discriminate H.
Qed.

(** A call of [create_qr_session] that returns a failure leaves the registry
    as it was: no new session is registered. *)
Lemma create_failure_keeps_registry
    (net : CreateNet) (u p : Z) (msg : Message) (st : State) (m : string) :
  fst (create_qr_session net u p msg st) = Ok (false, m) ->
  active_qr_sessions (snd (create_qr_session net u p msg st))
  = active_qr_sessions st.
Proof.
  destruct (api_configs st !! p) as [cfg|] eqn:Hp.
  2: { rewrite (create_absent_run _ _ _ _ _ Hp).
       reflexivity. }
  destruct (net_connect net) as [[]|ec] eqn:Hco;
    [destruct (net_qr_login net) as [url|eq] eqn:Hql |].
  - rewrite (create_success_run net u p msg st cfg url Hp Hco Hql).
    discriminate.
  - rewrite (create_login_error_run net u p msg st cfg eq Hp Hco Hql).
    reflexivity.
  - rewrite (create_connect_error_run net u p msg st cfg ec Hp Hco).
    reflexivity.
Qed.

Lemma connected_after_eviction_subseteq (st : State) (u : Z) (r : Res unit) :
  connected_after_eviction st u r ⊆ connected st.
Proof.
  unfold connected_after_eviction.
  destruct (active_qr_sessions st !! u) as [old|]; [destruct r|];
    try reflexivity.
  intros x Hx. apply elem_of_difference in Hx as [Hx _]. exact Hx.
Qed.

(** When [connect] itself raises, the call opens no connection. *)
Lemma create_connect_failure_opens_nothing
    (net : CreateNet) (u p : Z) (msg : Message) (st : State) (e : Exn) :
  net_connect net = Raise e ->
  connected (snd (create_qr_session net u p msg st)) ⊆ connected st.
Proof.
  intros Hco.
  destruct (api_configs st !! p) as [cfg|] eqn:Hp.
  - rewrite (create_connect_error_run net u p msg st cfg e Hp Hco).
    apply connected_after_eviction_subseteq.
  - rewrite (create_absent_run _ _ _ _ _ Hp).
    reflexivity.
Qed.

(** C8 (the code departs from it): when the profile resolves and the
    connection is made but [qr_login] raises, [create_qr_session] returns the
    failure and registers nothing, yet the client it constructed stays
    connected: it is never disconnected and no registry entry refers to it,
    so the connection is leaked. *)
Theorem failed_qr_login_leaks_client
    (net : CreateNet) (u p : Z) (msg : Message) (st : State)
    (cfg : ApiConfig) (e : Exn) :
  api_configs st !! p = Some cfg ->
  registry_clients_known st ->
  net_connect net = Ok tt ->
  net_qr_login net = Raise e ->
  let r := create_qr_session net u p msg st in
  fst r = Ok (false, msg_error e) /\
  active_qr_sessions (snd r) = active_qr_sessions st /\
  leaked (snd r) (next_client st) /\
  disconnects (next_client st) (events_since st (snd r)) = 0%nat.
Proof.
  intros Hp Hknown Hco Hql r. subst r.
  rewrite (create_login_error_run net u p msg st cfg e Hp Hco Hql).
  split; [reflexivity|]. split; [reflexivity|]. split.
  - split; simpl; [set_solver|].
    intros v s Hv Hc. specialize (Hknown v s Hv). lia.
  - unfold eviction_events.
    destruct (active_qr_sessions st !! u) as [old|] eqn:Hs; read_events.
    + assert (Hne : client old <> next_client st)
        by (specialize (Hknown u old Hs); lia).
      count_disconnects.
    + count_disconnects.
Qed.

Lemma failed_qr_login_leaks_client_witness :
  api_configs initial_state !! 1
  = Some (mkApiConfig 1 "Telegram Desktop" 2040
                      "b18441a1ff607e10a989891a5462e627") /\
  registry_clients_known initial_state /\
  net_connect create_login_refused = Ok tt /\
  net_qr_login create_login_refused
  = Raise (Exception "The api_id/api_hash combination is invalid") /\
  fst (create_qr_session create_login_refused 1001 1 0%nat initial_state)
  = Ok (false,
        msg_error (Exception "The api_id/api_hash combination is invalid")) /\
  active_qr_sessions
    (snd (create_qr_session create_login_refused 1001 1 0%nat initial_state))
  = active_qr_sessions initial_state /\
  leaked (snd (create_qr_session create_login_refused 1001 1 0%nat
                                 initial_state))
         (next_client initial_state) /\
  disconnects (next_client initial_state)
    (events_since initial_state
       (snd (create_qr_session create_login_refused 1001 1 0%nat
                               initial_state)))
  = 0%nat.
Proof.
  assert (Hknown : registry_clients_known initial_state).
  { intros u s Hs. simpl in Hs. rewrite lookup_empty in Hs. discriminate Hs. }
  split; [exact default_apis_first |]. split; [exact Hknown |].
  split; [reflexivity |]. split; [reflexivity |].
  apply (failed_qr_login_leaks_client
           create_login_refused 1001 1 0%nat initial_state
           (mkApiConfig 1 "Telegram Desktop" 2040
                        "b18441a1ff607e10a989891a5462e627")
           (Exception "The api_id/api_hash combination is invalid")).
  - exact default_apis_first.
  - exact Hknown.
  - reflexivity.
  - reflexivity.
Defined.

(** ** One session per user *)

(** The list of a user's sessions, taken from the listing of the registry,
    is what the lookup gives. *)
Lemma sessions_list_lookup (m : gmap Z Session) (u : Z) :
  (filter (fun kv : Z * Session => kv.1 = u) (map_to_list m)).*2
  = option_list (m !! u).
Proof.
  induction m as [|i x m Hi Hfold IH] using map_first_key_ind.
  - rewrite map_to_list_empty. reflexivity.
  - rewrite map_to_list_insert_first_key by assumption.
    rewrite filter_cons. cbn. case_decide as Hiu.
    + subst i. rewrite lookup_insert_eq. cbn. rewrite IH, Hi. reflexivity.
    + rewrite lookup_insert_ne by assumption. exact IH.
Qed.

Lemma sessions_of_lookup (st : State) (u : Z) :
  sessions_of st u = option_list (active_qr_sessions st !! u).
Proof. apply sessions_list_lookup. Qed.

(** C2: in every state the manager can be in, that is after any sequence of
    calls of [create_qr_session], [wait_for_qr_scan] and [cleanup_session]
    from any state, the registry holds at most one session for every user. *)
Theorem at_most_one_session_per_user
    (cs : list Call) (st : State) (u : Z) :
  (length (sessions_of (exec_all cs st) u) <= 1)%nat.
Proof.
  rewrite sessions_of_lookup.
  destruct (active_qr_sessions (exec_all cs st) !! u); simpl; lia.
Qed.

(** A successful [create_qr_session] replaces the user's session: the new
    one is then the only one. *)
Lemma create_replaces_session
    (net : CreateNet) (u p : Z) (msg : Message) (st : State)
    (cfg : ApiConfig) (url : string) :
  api_configs st !! p = Some cfg ->
  fst (create_qr_session net u p msg st) = Ok (true, url) ->
  sessions_of (snd (create_qr_session net u p msg st)) u
  = [new_session st url p cfg msg].
Proof.
  intros Hp. rewrite sessions_of_lookup.
  destruct (net_connect net) as [[]|ec] eqn:Hco;
    [destruct (net_qr_login net) as [url'|eq] eqn:Hql |].
  - rewrite (create_success_run net u p msg st cfg url' Hp Hco Hql).
    simpl. intros Hres. injection Hres as <-.
    rewrite lookup_insert_eq. reflexivity.
  - rewrite (create_login_error_run net u p msg st cfg eq Hp Hco Hql).
    discriminate.
  - rewrite (create_connect_error_run net u p msg st cfg ec Hp Hco).
    discriminate.
Qed.

(** ** Clients in the registry have been constructed *)

Lemma wait_registry_shrinks (net : WaitNet) (u : Z) (st : State) :
  let st' := snd (wait_for_qr_scan net u st) in
  (active_qr_sessions st' = active_qr_sessions st \/
   active_qr_sessions st' = delete u (active_qr_sessions st)) /\
  next_client st' = next_client st.
Proof.
  cbv zeta.
  destruct (active_qr_sessions st !! u) as [data|] eqn:Hs.
  2: { rewrite (wait_absent_run _ _ _ Hs). auto. }
  assert (Hto : no_scan_within 120 (net_scan net) ->
    (active_qr_sessions (snd (wait_for_qr_scan net u st))
     = active_qr_sessions st \/
     active_qr_sessions (snd (wait_for_qr_scan net u st))
     = delete u (active_qr_sessions st)) /\
    next_client (snd (wait_for_qr_scan net u st)) = next_client st).
  { intros Hw. rewrite (wait_timeout_run _ _ _ _ Hs Hw). auto. }
  destruct (net_scan net) as [t| |t e] eqn:Hscan.
  - destruct (Nat.lt_ge_cases t 120) as [Ht|Ht]; [| exact (Hto Ht)].
    destruct (net_is_authorized net) as [[|]|ea] eqn:Hauth.
    + destruct (net_disconnect net) as [[]|ed] eqn:Hdisc.
      * pose proof (wait_confirmed_run net u st data t
                      Hs Hscan Ht Hauth Hdisc) as Hrun.
        cbv zeta in Hrun. rewrite Hrun. auto.
      * pose proof (wait_disconnect_error_run net u st data t ed
                      Hs Hscan Ht Hauth Hdisc) as Hrun.
        cbv zeta in Hrun. rewrite Hrun. auto.
    + rewrite (wait_unauthorized_run net u st data t Hs Hscan Ht Hauth).
      auto.
    + rewrite (wait_auth_error_run net u st data t ea Hs Hscan Ht Hauth).
      auto.
  - exact (Hto I).
  - destruct (Nat.lt_ge_cases t 120) as [Ht|Ht]; [| exact (Hto Ht)].
    rewrite (wait_scan_error_run net u st data t e Hs Hscan Ht). auto.
Qed.

Lemma cleanup_registry_shrinks (r : Res unit) (u : Z) (st : State) :
  let st' := snd (cleanup_session r u st) in
  (active_qr_sessions st' = active_qr_sessions st \/
   active_qr_sessions st' = delete u (active_qr_sessions st)) /\
  next_client st' = next_client st.
Proof.
  cbv zeta.
  destruct (active_qr_sessions st !! u) as [s|] eqn:Hs.
  - rewrite (cleanup_session_run r u st s Hs). auto.
  - rewrite (cleanup_session_absent r u st Hs). auto.
Qed.

Lemma registry_clients_known_shrink (st st' : State) (u : Z) :
  (active_qr_sessions st' = active_qr_sessions st \/
   active_qr_sessions st' = delete u (active_qr_sessions st)) ->
  next_client st' = next_client st ->
  registry_clients_known st -> registry_clients_known st'.
Proof.
  intros Hreg Hnext Hknown v s Hv. rewrite Hnext.
  destruct Hreg as [Hreg|Hreg]; rewrite Hreg in Hv.
  - exact (Hknown v s Hv).
  - apply lookup_delete_Some in Hv as [_ Hv]. exact (Hknown v s Hv).
Qed.

Lemma create_registry_clients_known
    (net : CreateNet) (u p : Z) (msg : Message) (st : State) :
  registry_clients_known st ->
  registry_clients_known (snd (create_qr_session net u p msg st)).
Proof.
  intros Hknown.
  assert (Hweak : forall v s, active_qr_sessions st !! v = Some s ->
                              (client s < S (next_client st))%nat)
    by (intros v s Hv; specialize (Hknown v s Hv); lia).
  destruct (api_configs st !! p) as [cfg|] eqn:Hp.
  2: { rewrite (create_absent_run _ _ _ _ _ Hp).
       exact Hknown. }
  destruct (net_connect net) as [[]|ec] eqn:Hco;
    [destruct (net_qr_login net) as [url|eq] eqn:Hql |].
  - rewrite (create_success_run net u p msg st cfg url Hp Hco Hql).
    intros v s Hv. simpl in Hv |- *.
    apply lookup_insert_Some in Hv as [[_ <-]|[_ Hv]].
    + simpl. lia.
    + exact (Hweak v s Hv).
  - rewrite (create_login_error_run net u p msg st cfg eq Hp Hco Hql).
    exact Hweak.
  - rewrite (create_connect_error_run net u p msg st cfg ec Hp Hco).
    exact Hweak.
Qed.

Lemma registry_clients_known_exec (c : Call) (st : State) :
  registry_clients_known st -> registry_clients_known (exec c st).
Proof.
  destruct c as [net u p msg|net u|r u]; simpl.
  - apply create_registry_clients_known.
  - destruct (wait_registry_shrinks net u st) as [Hreg Hnext].
    exact (registry_clients_known_shrink _ _ u Hreg Hnext).
  - destruct (cleanup_registry_shrinks r u st) as [Hreg Hnext].
    exact (registry_clients_known_shrink _ _ u Hreg Hnext).
Qed.

(** In every state reachable from the start of the bot, the clients of the
    registry have been constructed. *)
Lemma registry_clients_known_reachable (cs : list Call) :
  registry_clients_known (exec_all cs initial_state).
Proof.
  unfold exec_all. rewrite <- fold_left_rev_right.
  induction (rev cs) as [|c l IH]; simpl.
  - intros v s Hv. simpl in Hv. rewrite lookup_empty in Hv. discriminate.
  - apply registry_clients_known_exec. exact IH.
Qed.

(** ** What every run does and never does *)

(** Splits a run of [wait_for_qr_scan] on a session in flight into its
    paths and rewrites the run by the equation of each. *)
Ltac wait_cases net u st data Hs :=
  let t := fresh "t" in
  let e := fresh "e" in
  let Hscan := fresh "Hscan" in
  let Ht := fresh "Ht" in
  let Hauth := fresh "Hauth" in
  let Hdisc := fresh "Hdisc" in
  let Hw := fresh "Hw" in
  let Hrun := fresh "Hrun" in
  destruct (net_scan net) as [t| |t e] eqn:Hscan;
  [ destruct (Nat.lt_ge_cases t 120) as [Ht|Ht];
    [ destruct (net_is_authorized net) as [[|]|e] eqn:Hauth;
      [ destruct (net_disconnect net) as [[]|e] eqn:Hdisc;
        [ pose proof (wait_confirmed_run net u st data t
                        Hs Hscan Ht Hauth Hdisc) as Hrun
        | pose proof (wait_disconnect_error_run net u st data t e
                        Hs Hscan Ht Hauth Hdisc) as Hrun ]
      | pose proof (wait_unauthorized_run net u st data t
                      Hs Hscan Ht Hauth) as Hrun
      | pose proof (wait_auth_error_run net u st data t e
                      Hs Hscan Ht Hauth) as Hrun ]
    | assert (Hw : no_scan_within 120 (net_scan net))
        by (rewrite Hscan; exact Ht);
      pose proof (wait_timeout_run net u st data Hs Hw) as Hrun ]
  | assert (Hw : no_scan_within 120 (net_scan net))
      by (rewrite Hscan; exact I);
    pose proof (wait_timeout_run net u st data Hs Hw) as Hrun
  | destruct (Nat.lt_ge_cases t 120) as [Ht|Ht];
    [ pose proof (wait_scan_error_run net u st data t e Hs Hscan Ht) as Hrun
    | assert (Hw : no_scan_within 120 (net_scan net))
        by (rewrite Hscan; exact Ht);
      pose proof (wait_timeout_run net u st data Hs Hw) as Hrun ] ];
  cbv zeta in Hrun; rewrite Hrun.

(** Splits a run of [create_qr_session] with a known profile into its
    paths and rewrites the run by the equation of each. *)
Ltac create_cases net u p msg st cfg Hp :=
  let url := fresh "url" in
  let e := fresh "e" in
  let Hco := fresh "Hco" in
  let Hql := fresh "Hql" in
  destruct (net_connect net) as [[]|e] eqn:Hco;
  [ destruct (net_qr_login net) as [url|e] eqn:Hql;
    [ rewrite (create_success_run net u p msg st cfg url Hp Hco Hql)
    | rewrite (create_login_error_run net u p msg st cfg e Hp Hco Hql) ]
  | rewrite (create_connect_error_run net u p msg st cfg e Hp Hco) ].

(** The returns of [wait_for_qr_scan]. *)
Lemma wait_result_cases (net : WaitNet) (u : Z) (st : State) :
  (exists info, fst (wait_for_qr_scan net u st) = Ok (true, Info info)) \/
  (exists m, fst (wait_for_qr_scan net u st) = Ok (false, Text m) /\
     (m = msg_session_not_found \/ m = msg_not_authorized \/
      m = msg_timeout \/ exists e, m = msg_error e)).
Proof.
  destruct (active_qr_sessions st !! u) as [data|] eqn:Hs.
  - assert (Hfail : forall e,
      failure_text e = msg_timeout \/ exists e', failure_text e = msg_error e')
      by (intros []; simpl; eauto).
    wait_cases net u st data Hs; simpl; eauto 8;
      right; eexists; (split; [reflexivity|]);
      destruct (Hfail e) as [->|[e' ->]]; eauto 8.
  - rewrite (wait_absent_run net u st Hs). simpl. eauto 8.
Qed.

(** X3: [cleanup_session] never raises and leaves no entry for the user;
    called again, it does nothing at all: the state is as the first call
    left it, whatever the network would answer. *)
Theorem cleanup_session_idempotent
    (r1 r2 : Res unit) (u : Z) (st : State) :
  let st1 := snd (cleanup_session r1 u st) in
  fst (cleanup_session r1 u st) = Ok tt /\
  active_qr_sessions st1 !! u = None /\
  cleanup_session r2 u st1 = (Ok tt, st1).
Proof.
  cbv zeta.
  assert (Hgone : active_qr_sessions (snd (cleanup_session r1 u st)) !! u
                  = None).
  { destruct (active_qr_sessions st !! u) as [s|] eqn:Hs.
    - rewrite (cleanup_session_run r1 u st s Hs). apply lookup_delete_eq.
    - rewrite (cleanup_session_absent r1 u st Hs). exact Hs. }
  split; [|split; [exact Hgone | exact (cleanup_session_absent _ _ _ Hgone)]].
  destruct (active_qr_sessions st !! u) as [s|] eqn:Hs.
  - rewrite (cleanup_session_run r1 u st s Hs). reflexivity.
  - rewrite (cleanup_session_absent r1 u st Hs). reflexivity.
Qed.

Lemma create_registry_change
    (net : CreateNet) (u p : Z) (msg : Message) (st : State) :
  let st' := snd (create_qr_session net u p msg st) in
  (active_qr_sessions st' = active_qr_sessions st \/
   exists s, client s = next_client st /\
             active_qr_sessions st' = <[u := s]> (active_qr_sessions st)) /\
  user_sessions st' = user_sessions st /\
  api_configs st' = api_configs st /\
  (next_client st <= next_client st')%nat.
Proof.
  cbv zeta.
  destruct (api_configs st !! p) as [cfg|] eqn:Hp.
  - create_cases net u p msg st cfg Hp; simpl;
      (split; [| repeat split; lia]).
    + right. eexists. split; [|reflexivity]. reflexivity.
    + left. reflexivity.
    + left. reflexivity.
  - rewrite (create_absent_run net u p msg st Hp). auto.
Qed.

Lemma exec_registry_other (c : Call) (st : State) (v : Z) :
  v <> call_user c ->
  active_qr_sessions (exec c st) !! v = active_qr_sessions st !! v.
Proof.
  intros Hv. destruct c as [net u p msg|net u|r u]; simpl in *.
  - destruct (create_registry_change net u p msg st)
      as [[Hreg|(s & _ & Hreg)] _]; rewrite Hreg; [reflexivity|].
    apply lookup_insert_ne. congruence.
  - destruct (wait_registry_shrinks net u st) as [[Hreg|Hreg] _];
      rewrite Hreg; [reflexivity|].
    apply lookup_delete_ne. congruence.
  - destruct (cleanup_registry_shrinks r u st) as [[Hreg|Hreg] _];
      rewrite Hreg; [reflexivity|].
    apply lookup_delete_ne. congruence.
Qed.

(** X4: a call made for one user, whether it opens a handshake, waits for
    it or drops it, and however it ends, leaves the registry entry of every
    other user exactly as it was. *)
Theorem call_leaves_other_users (c : Call) (st : State) (v : Z) :
  v <> call_user c ->
  active_qr_sessions (exec c st) !! v = active_qr_sessions st !! v.
Proof. apply exec_registry_other. Qed.

Lemma call_leaves_other_users_witness :
  1003 <> call_user (CallWait wait_unauthorized 1001) /\
  active_qr_sessions
    (exec (CallWait wait_unauthorized 1001) (state_waiting 1001)) !! 1003
  = active_qr_sessions (state_waiting 1001) !! 1003.
Proof.
  split; [discriminate |].
  apply (call_leaves_other_users (CallWait wait_unauthorized 1001)
                                 (state_waiting 1001) 1003).
  discriminate.
Defined.

(** X5: the table of saved sessions only grows, and only by waiting: a
    call adds at most one row, on top of the rows that were there, which
    stay unchanged and in place; an added row belongs to the user the call
    was made for; opening or dropping a handshake adds none. *)
Theorem calls_only_append_rows (c : Call) (st : State) :
  exists added,
    user_sessions (exec c st) = added ++ user_sessions st /\
    (length added <= 1)%nat /\
    (forall row, row ∈ added -> row_user_id row = call_user c) /\
    match c with
    | CallWait _ _ => True
    | _ => added = []
    end.
Proof.
  destruct c as [net u p msg|net u|r u]; simpl.
  - exists []. destruct (create_registry_change net u p msg st)
      as (_ & Hrows & _). rewrite Hrows.
    repeat split; auto. intros row Hin. inversion Hin.
  - destruct (active_qr_sessions st !! u) as [data|] eqn:Hs.
    + wait_cases net u st data Hs; simpl;
        first [ eexists [_]; repeat split; [simpl; lia|];
                intros row Hin; apply list_elem_of_singleton in Hin;
                subst row; reflexivity
              | exists []; repeat split; [simpl; lia|];
                intros row Hin; inversion Hin ].
    + rewrite (wait_absent_run net u st Hs). exists [].
      repeat split; [simpl; lia|]. intros row Hin. inversion Hin.
  - exists []. repeat split; auto.
    + destruct (active_qr_sessions st !! u) as [s|] eqn:Hs.
      * rewrite (cleanup_session_run r u st s Hs). reflexivity.
      * rewrite (cleanup_session_absent r u st Hs). reflexivity.
    + intros row Hin. inversion Hin.
Qed.

Lemma msg_timeout_not_unauthorized : msg_timeout <> msg_not_authorized.
Proof.
  unfold msg_timeout, msg_not_authorized. intros H.
  injection H. intros; discriminate.
Qed.

Lemma failure_text_not_unauthorized (e : Exn) :
  failure_text e <> msg_not_authorized.
Proof.
  destruct e; simpl; try exact msg_timeout_not_unauthorized;
    unfold msg_error, msg_not_authorized; intros H;
    injection H; intros; discriminate.
Qed.

(** A run that reports the missing authorization went down that path. *)
Lemma wait_unauthorized_inv
    (net : WaitNet) (u : Z) (st : State) (data : Session) :
  active_qr_sessions st !! u = Some data ->
  fst (wait_for_qr_scan net u st) = Ok (false, Text msg_not_authorized) ->
  exists t, net_scan net = Scanned t /\ (t < 120)%nat /\
            net_is_authorized net = Ok false.
Proof.
  intros Hs.
  wait_cases net u st data Hs; simpl; intros Hres;
    try discriminate Hres; eauto;
    injection Hres as Hm;
    first [ exact (False_ind _ (failure_text_not_unauthorized _ Hm))
          | exact (False_ind _ (msg_timeout_not_unauthorized Hm)) ].
Qed.

(** X6: a session in flight is still registered after [wait_for_qr_scan]
    exactly when the call returned the not-authorized failure; after every
    other return the user's entry is gone. *)
Theorem session_survives_wait_iff_unauthorized
    (net : WaitNet) (u : Z) (st : State) (data : Session) :
  active_qr_sessions st !! u = Some data ->
  let r := wait_for_qr_scan net u st in
  (active_qr_sessions (snd r) !! u = Some data <->
   fst r = Ok (false, Text msg_not_authorized)) /\
  (active_qr_sessions (snd r) !! u = None <->
   fst r <> Ok (false, Text msg_not_authorized)).
Proof.
  intros Hs r. subst r.
  assert (Hyes : fst (wait_for_qr_scan net u st)
                 = Ok (false, Text msg_not_authorized) ->
                 active_qr_sessions (snd (wait_for_qr_scan net u st)) !! u
                 = Some data).
  { intros Hres.
    destruct (wait_unauthorized_inv net u st data Hs Hres)
      as (t & Hscan & Ht & Hauth).
    rewrite (wait_unauthorized_run net u st data t Hs Hscan Ht Hauth).
    exact Hs. }
  assert (Hno : fst (wait_for_qr_scan net u st)
                <> Ok (false, Text msg_not_authorized) ->
                active_qr_sessions (snd (wait_for_qr_scan net u st)) !! u
                = None).
  { intros Hres.
    exact (proj1 (wait_cleans_up_unless_unauthorized net u st data Hs Hres)). }
  assert (Hdec : fst (wait_for_qr_scan net u st)
                 = Ok (false, Text msg_not_authorized) \/
                 fst (wait_for_qr_scan net u st)
                 <> Ok (false, Text msg_not_authorized)).
  { wait_cases net u st data Hs; simpl;
      first [ left; reflexivity
            | right; discriminate
            | right; intros H; injection H as Hm;
              first [ exact (failure_text_not_unauthorized _ Hm)
                    | exact (msg_timeout_not_unauthorized Hm) ] ]. }
  split; split.
  - intros Hreg. destruct Hdec as [H|H]; [exact H|].
    rewrite (Hno H) in Hreg. discriminate.
  - exact Hyes.
  - intros Hreg H. rewrite (Hyes H) in Hreg. discriminate.
  - exact Hno.
Qed.

Lemma session_survives_wait_iff_unauthorized_witness :
  active_qr_sessions (state_waiting 1001) !! 1001 = Some session_waiting /\
  (active_qr_sessions
     (snd (wait_for_qr_scan wait_unauthorized 1001 (state_waiting 1001)))
     !! 1001 = Some session_waiting <->
   fst (wait_for_qr_scan wait_unauthorized 1001 (state_waiting 1001))
   = Ok (false, Text msg_not_authorized)).
Proof.
  split; [apply state_waiting_lookup |].
  apply (session_survives_wait_iff_unauthorized
           wait_unauthorized 1001 (state_waiting 1001) session_waiting).
  apply state_waiting_lookup.
Defined.

(** X7: when a user has a session in flight, the profile resolves and the
    eviction's disconnect succeeds, a [create_qr_session] in which [connect]
    or [qr_login] raises returns a failure and leaves the old session in the
    registry although its client is no longer connected. *)
Theorem failed_handshake_keeps_evicted_session
    (net : CreateNet) (u p : Z) (msg : Message) (st : State)
    (old : Session) (cfg : ApiConfig) :
  active_qr_sessions st !! u = Some old ->
  api_configs st !! p = Some cfg ->
  registry_clients_known st ->
  net_old_disconnect net = Ok tt ->
  (exists e, net_connect net = Raise e) \/
  (exists e, net_qr_login net = Raise e) ->
  let st' := snd (create_qr_session net u p msg st) in
  (exists m, fst (create_qr_session net u p msg st) = Ok (false, m)) /\
  active_qr_sessions st' !! u = Some old /\
  client old ∉ connected st'.
Proof.
  intros Hs Hp Hknown Hod Hfail. cbv zeta.
  assert (Hne : client old <> next_client st)
    by (specialize (Hknown u old Hs); lia).
  assert (Hev : connected_after_eviction st u (net_old_disconnect net)
                = connected st ∖ {[client old]})
    by (unfold connected_after_eviction; rewrite Hs, Hod; reflexivity).
  create_cases net u p msg st cfg Hp; simpl; rewrite ?Hev.
  - destruct Hfail as [[e He]|[e He]]; discriminate He.
  - split; [eauto|]. split; [exact Hs|].
    intros Hin. apply elem_of_union in Hin as [Hin|Hin].
    + apply elem_of_singleton in Hin. exact (Hne Hin).
    + apply elem_of_difference in Hin as [_ Hin].
      apply Hin. apply elem_of_singleton. reflexivity.
  - split; [eauto|]. split; [exact Hs|].
    intros Hin. apply elem_of_difference in Hin as [_ Hin].
    apply Hin. apply elem_of_singleton. reflexivity.
Qed.

Lemma failed_handshake_keeps_evicted_session_witness :
  active_qr_sessions (state_waiting 1003) !! 1003 = Some session_waiting /\
  net_qr_login create_login_refused
  = Raise (Exception "The api_id/api_hash combination is invalid") /\
  active_qr_sessions
    (snd (create_qr_session create_login_refused 1003 1 0%nat
                            (state_waiting 1003))) !! 1003
  = Some session_waiting /\
  client session_waiting
    ∉ connected (snd (create_qr_session create_login_refused 1003 1 0%nat
                                        (state_waiting 1003))).
Proof.
  split; [apply state_waiting_lookup |].
  split; [reflexivity |].
  apply (failed_handshake_keeps_evicted_session
           create_login_refused 1003 1 0%nat (state_waiting 1003)
           session_waiting
           (mkApiConfig 1 "Telegram Desktop" 2040
                        "b18441a1ff607e10a989891a5462e627")).
  - apply state_waiting_lookup.
  - vm_compute. reflexivity.
  - exact (registry_clients_known_reachable
             [CallCreate (create_ok "tg://login?token=AQ") 1003 1 0%nat]).
  - reflexivity.
  - right. eexists. reflexivity.
Defined.

(** X8: [wait_for_qr_scan] never lets more than 123 seconds pass, the 120
    of the bounded wait and the 3 of the pause after the scan, and the clock
    never runs backwards. *)
Theorem wait_for_qr_scan_duration (net : WaitNet) (u : Z) (st : State) :
  (clock st <= clock (snd (wait_for_qr_scan net u st)) <= clock st + 123)%nat.
Proof.
  destruct (active_qr_sessions st !! u) as [data|] eqn:Hs.
  - wait_cases net u st data Hs; simpl; lia.
  - rewrite (wait_absent_run net u st Hs). simpl. lia.
Qed.

(** X9: when [create_qr_session] returns success, the profile was in the
    store, the returned token is the url of the session now registered for
    the user, that session is the only one of the user, and its client,
    constructed by this call, is connected. *)
Theorem create_success_registers_token
    (net : CreateNet) (u p : Z) (msg : Message) (st : State)
    (url : string) :
  fst (create_qr_session net u p msg st) = Ok (true, url) ->
  let st' := snd (create_qr_session net u p msg st) in
  exists cfg,
    api_configs st !! p = Some cfg /\
    active_qr_sessions st' !! u = Some (new_session st url p cfg msg) /\
    sessions_of st' u = [new_session st url p cfg msg] /\
    qr_login (new_session st url p cfg msg) = url /\
    client (new_session st url p cfg msg) = next_client st /\
    next_client st ∈ connected st' /\
    next_client st' = S (next_client st).
Proof.
  cbv zeta. rewrite sessions_of_lookup.
  destruct (api_configs st !! p) as [cfg|] eqn:Hp.
  - create_cases net u p msg st cfg Hp; simpl; intros Hres;
      try discriminate Hres.
    injection Hres as <-. exists cfg. rewrite lookup_insert_eq.
    repeat split. apply elem_of_union_l. apply elem_of_singleton.
    reflexivity.
  - rewrite (create_absent_run net u p msg st Hp). discriminate.
Qed.

Lemma create_success_registers_token_witness :
  fst (create_qr_session (create_ok "tg://login?token=Ag") 1003 2 0%nat
                         (state_waiting 1003))
  = Ok (true, "tg://login?token=Ag") /\
  exists cfg,
    api_configs (state_waiting 1003) !! 2 = Some cfg /\
    active_qr_sessions
      (snd (create_qr_session (create_ok "tg://login?token=Ag") 1003 2 0%nat
                              (state_waiting 1003))) !! 1003
    = Some (new_session (state_waiting 1003) "tg://login?token=Ag" 2 cfg
                        0%nat).
Proof.
  split; [vm_compute; reflexivity |].
  destruct (create_success_registers_token
              (create_ok "tg://login?token=Ag") 1003 2 0%nat
              (state_waiting 1003) "tg://login?token=Ag")
    as (cfg & Hp & Hreg & _).
  - vm_compute. reflexivity.
  - exists cfg. split; [exact Hp | exact Hreg].
Defined.

(** ** Connections and their owners *)

Lemma registry_clients_distinct_shrink (st st' : State) (u : Z) :
  (active_qr_sessions st' = active_qr_sessions st \/
   active_qr_sessions st' = delete u (active_qr_sessions st)) ->
  registry_clients_distinct st -> registry_clients_distinct st'.
Proof.
  intros Hreg Hdist v w s1 s2 Hv Hw.
  destruct Hreg as [Hreg|Hreg]; rewrite Hreg in Hv, Hw.
  - exact (Hdist v w s1 s2 Hv Hw).
  - apply lookup_delete_Some in Hv as [_ Hv].
    apply lookup_delete_Some in Hw as [_ Hw].
    exact (Hdist v w s1 s2 Hv Hw).
Qed.

Lemma create_registry_clients_distinct
    (net : CreateNet) (u p : Z) (msg : Message) (st : State) :
  registry_clients_known st ->
  registry_clients_distinct st ->
  registry_clients_distinct (snd (create_qr_session net u p msg st)).
Proof.
  intros Hknown Hdist.
  destruct (create_registry_change net u p msg st)
    as [[Hreg|(s & Hc & Hreg)] _]; intros v w s1 s2 Hv Hw Heq;
    rewrite Hreg in Hv, Hw.
  - exact (Hdist v w s1 s2 Hv Hw Heq).
  - apply lookup_insert_Some in Hv as [[Hvu Hvs]|[Hvu Hv]];
      apply lookup_insert_Some in Hw as [[Hwu Hws]|[Hwu Hw]].
    + congruence.
    + subst s1. specialize (Hknown w s2 Hw). lia.
    + subst s2. specialize (Hknown v s1 Hv). lia.
    + exact (Hdist v w s1 s2 Hv Hw Heq).
Qed.

Lemma registry_clients_distinct_exec (c : Call) (st : State) :
  registry_clients_known st ->
  registry_clients_distinct st ->
  registry_clients_distinct (exec c st).
Proof.
  destruct c as [net u p msg|net u|r u]; simpl; intros Hknown.
  - apply create_registry_clients_distinct. exact Hknown.
  - destruct (wait_registry_shrinks net u st) as [Hreg _].
    exact (registry_clients_distinct_shrink _ _ u Hreg).
  - destruct (cleanup_registry_shrinks r u st) as [Hreg _].
    exact (registry_clients_distinct_shrink _ _ u Hreg).
Qed.

Lemma registry_invariants_reachable (cs : list Call) :
  registry_clients_distinct (exec_all cs initial_state) /\
  registry_clients_known (exec_all cs initial_state).
Proof.
  unfold exec_all. rewrite <- fold_left_rev_right.
  induction (rev cs) as [|c l [IHd IHk]]; simpl.
  - split.
    + intros v w s1 s2 Hv. simpl in Hv. rewrite lookup_empty in Hv.
      discriminate.
    + intros v s Hv. simpl in Hv. rewrite lookup_empty in Hv. discriminate.
  - split.
    + apply registry_clients_distinct_exec; assumption.
    + apply registry_clients_known_exec. exact IHk.
Qed.

(** X10: in every state reachable from the start of the bot by calls of
    the manager, no two users' sessions share a client, and every client in
    the registry is one the manager constructed. *)
Theorem registry_clients_distinct_reachable (cs : list Call) :
  registry_clients_distinct (exec_all cs initial_state) /\
  registry_clients_known (exec_all cs initial_state).
Proof. apply registry_invariants_reachable. Qed.

Lemma elem_of_difference_other (X : gset nat) (c c' : nat) :
  c <> c' -> c' ∈ X -> c' ∈ X ∖ {[c]}.
Proof.
  intros Hne Hin. apply elem_of_difference. split; [exact Hin|].
  intros Hc. apply elem_of_singleton in Hc. congruence.
Qed.

(** The only client a call can disconnect is the one registered for its
    user. *)
Lemma exec_spares_client (c : Call) (st : State) (c' : nat) :
  (forall s, active_qr_sessions st !! call_user c = Some s ->
             client s <> c') ->
  disconnects c' (events_since st (exec c st)) = 0%nat /\
  (c' ∈ connected st -> c' ∈ connected (exec c st)).
Proof.
  intros Hother.
  destruct c as [net u p msg|net u|r u]; simpl in *.
  - destruct (api_configs st !! p) as [cfg|] eqn:Hp.
    + assert (Hev : disconnects c' (eviction_events st u) = 0%nat /\
                    (c' ∈ connected st ->
                     c' ∈ connected_after_eviction st u
                            (net_old_disconnect net))).
      { unfold eviction_events, connected_after_eviction.
        destruct (active_qr_sessions st !! u) as [old|] eqn:Hs.
        - specialize (Hother old eq_refl). split; [count_disconnects|].
          destruct (net_old_disconnect net); [|auto].
          apply elem_of_difference_other. exact Hother.
        - split; [reflexivity | auto]. }
      destruct Hev as [Hev0 Hevc].
      assert (Happ : forall l1 l2,
                disconnects c' (l1 ++ l2)
                = (disconnects c' l1 + disconnects c' l2)%nat).
      { intros l1 l2. unfold disconnects.
        rewrite filter_app, length_app. reflexivity. }
      create_cases net u p msg st cfg Hp; unfold events_since; simpl;
        rewrite drop_app_length, Happ, Hev0; simpl;
        (split; [unfold connect_events; simpl; count_disconnects |]);
        intros Hin; try apply elem_of_union_r; exact (Hevc Hin).
    + rewrite (create_absent_run net u p msg st Hp).
      unfold events_since. simpl. rewrite drop_all. auto.
  - destruct (active_qr_sessions st !! u) as [data|] eqn:Hs.
    + specialize (Hother data eq_refl).
      wait_cases net u st data Hs; read_events;
        (split; [count_disconnects |]);
        intros Hin; try exact Hin;
        try (destruct (net_cleanup_disconnect net); [|exact Hin]);
        exact (elem_of_difference_other _ _ _ Hother Hin).
    + rewrite (wait_absent_run net u st Hs).
      unfold events_since. simpl. rewrite drop_all. auto.
  - destruct (active_qr_sessions st !! u) as [s|] eqn:Hs.
    + specialize (Hother s eq_refl).
      rewrite (cleanup_session_run r u st s Hs). read_events.
      split; [count_disconnects |].
      intros Hin. destruct r; [|exact Hin].
      exact (elem_of_difference_other _ _ _ Hother Hin).
    + rewrite (cleanup_session_absent r u st Hs).
      unfold events_since. rewrite drop_all. auto.
Qed.

(** X11: where no two users share a client, a call made for one user never
    invokes the disconnect of the client of another user's session, and that
    client stays connected if it was. *)
Theorem call_spares_other_connections
    (c : Call) (st : State) (v : Z) (s : Session) :
  registry_clients_distinct st ->
  v <> call_user c ->
  active_qr_sessions st !! v = Some s ->
  disconnects (client s) (events_since st (exec c st)) = 0%nat /\
  (client s ∈ connected st -> client s ∈ connected (exec c st)).
Proof.
  intros Hdist Hv Hs. apply exec_spares_client.
  intros s' Hs' Heq. apply Hv. symmetry.
  exact (Hdist (call_user c) v s' s Hs' Hs Heq).
Qed.

Lemma call_spares_other_connections_witness :
  registry_clients_distinct state_two_waiting /\
  1002 <> call_user (CallWait wait_disconnect_fails 1001) /\
  active_qr_sessions state_two_waiting !! 1002 = Some session_second /\
  disconnects (client session_second)
    (events_since state_two_waiting
       (exec (CallWait wait_disconnect_fails 1001) state_two_waiting))
  = 0%nat /\
  (client session_second ∈ connected state_two_waiting ->
   client session_second
     ∈ connected (exec (CallWait wait_disconnect_fails 1001)
                       state_two_waiting)).
Proof.
  assert (Hdist : registry_clients_distinct state_two_waiting)
    by exact (proj1 (registry_invariants_reachable _)).
  split; [exact Hdist |]. split; [discriminate |].
  split; [vm_compute; reflexivity |].
  apply (call_spares_other_connections
           (CallWait wait_disconnect_fails 1001) state_two_waiting 1002
           session_second).
  - exact Hdist.
  - discriminate.
  - vm_compute. reflexivity.
Defined.

(** ** The table of api profiles *)

(** Evaluates the database methods and the routes over them. *)
Ltac red_db :=
  lazy beta iota zeta delta
    [add_api_config insert_api_config set_api_configs add_default_apis
     for_each get_user_sessions api_check_session api_create_session
     try_except bind get pass ret raise
     active_qr_sessions api_configs user_sessions connected next_client
     clock trace fst snd] in *.

Lemma next_api_id_above (t : gmap Z ApiConfig) (k : Z) (cfg : ApiConfig) :
  t !! k = Some cfg -> k < next_api_id t.
Proof.
  unfold next_api_id.
  enough (H : forall k cfg, t !! k = Some cfg ->
                            k <= map_fold (fun k _ acc => Z.max k acc) 0 t)
    by (intros Hk; specialize (H k cfg Hk); lia).
  clear k cfg.
  apply (map_fold_weak_ind
           (fun acc (m : gmap Z ApiConfig) =>
              forall k cfg, m !! k = Some cfg -> k <= acc)).
  - intros k cfg Hk. rewrite lookup_empty in Hk. discriminate.
  - intros i x m r Hi IH k cfg Hk.
    apply lookup_insert_Some in Hk as [[<- _]|[_ Hk]].
    + lia.
    + specialize (IH k cfg Hk). lia.
Qed.

Lemma next_api_id_fresh (t : gmap Z ApiConfig) : t !! next_api_id t = None.
Proof.
  destruct (t !! next_api_id t) as [cfg|] eqn:Hk; [|reflexivity].
  apply next_api_id_above in Hk. lia.
Qed.

Lemma next_api_id_positive (t : gmap Z ApiConfig) : 1 <= next_api_id t.
Proof.
  unfold next_api_id.
  enough (0 <= map_fold (fun k (_ : ApiConfig) acc => Z.max k acc) 0 t)
    by lia.
  apply (map_fold_weak_ind (fun acc (_ : gmap Z ApiConfig) => 0 <= acc));
    intros; lia.
Qed.

Lemma next_api_id_insert (t : gmap Z ApiConfig) (x : ApiConfig) :
  next_api_id (<[next_api_id t := x]> t) = next_api_id t + 1.
Proof.
  unfold next_api_id at 1.
  rewrite map_fold_insert_L.
  - unfold next_api_id. lia.
  - intros. lia.
  - apply next_api_id_fresh.
Qed.

Lemma insert_api_config_run
    (name : string) (api_id : Z) (api_hash : string) (st : State) :
  fits_int64 api_id = true ->
  insert_api_config name api_id api_hash st
  = (Ok tt,
     mkState (active_qr_sessions st)
             (<[next_api_id (api_configs st) :=
                  mkApiConfig (next_api_id (api_configs st))
                              name api_id api_hash]> (api_configs st))
             (user_sessions st) (connected st) (next_client st) (clock st)
             (trace st)).
Proof.
  intros Hf. unfold insert_api_config. rewrite Hf. destruct st. reflexivity.
Qed.

Lemma insert_api_config_overflow
    (name : string) (api_id : Z) (api_hash : string) (st : State) :
  fits_int64 api_id = false ->
  insert_api_config name api_id api_hash st = (Raise overflow_error, st).
Proof.
  intros Hf. unfold insert_api_config. rewrite Hf. reflexivity.
Qed.

Lemma get_api_by_id_present (k : Z) (cfg : ApiConfig) (st : State) :
  fst (get_api_by_id k st) = Ok (Some cfg) <-> api_configs st !! k = Some cfg.
Proof.
  unfold get_api_by_id, bind, get, ret, raise. simpl.
  destruct (api_configs st !! k) as [cfg'|]; simpl.
  - split; congruence.
  - destruct (fits_int64 k); simpl; split; discriminate.
Qed.

(** X12: while the generated key stays a signed 64-bit integer,
    [add_api_config] with an [api_id] in that range gives the new row an id
    that no row had, one above the largest id in use; [get_api_by_id] of
    that id returned [None] before and then returns the row with the name,
    api id and api hash that were given, and every id that resolved before
    still resolves to the same row.  With an [api_id] outside the range the
    call raises [OverflowError] and the table is as it was. *)
Theorem add_api_config_round_trip
    (name : string) (api_id : Z) (api_hash : string) (st : State) :
  let new_id := next_api_id (api_configs st) in
  let st' := snd (add_api_config name api_id api_hash st) in
  fits_int64 new_id = true ->
  (fits_int64 api_id = true ->
   fst (add_api_config name api_id api_hash st) = Ok tt /\
   fst (get_api_by_id new_id st) = Ok None /\
   (forall k cfg, api_configs st !! k = Some cfg -> k < new_id) /\
   fst (get_api_by_id new_id st')
   = Ok (Some (mkApiConfig new_id name api_id api_hash)) /\
   (forall k cfg, fst (get_api_by_id k st) = Ok (Some cfg) ->
                  fst (get_api_by_id k st') = Ok (Some cfg))) /\
  (fits_int64 api_id = false ->
   add_api_config name api_id api_hash st = (Raise overflow_error, st)).
Proof.
  cbv zeta. intros Hnew. unfold add_api_config. split.
  - intros Hf. rewrite (insert_api_config_run _ _ _ _ Hf).
    split; [reflexivity|].
    split.
    { unfold get_api_by_id, bind, get. simpl.
      rewrite next_api_id_fresh, Hnew. reflexivity. }
    split; [intros k cfg; apply next_api_id_above|].
    split.
    { apply get_api_by_id_present. simpl. apply lookup_insert_eq. }
    intros k cfg Hk. apply get_api_by_id_present in Hk.
    apply get_api_by_id_present. simpl.
    rewrite lookup_insert_ne; [exact Hk|].
    intros Heq. subst k. rewrite next_api_id_fresh in Hk. discriminate.
  - apply insert_api_config_overflow.
Qed.

Lemma add_api_config_round_trip_witness :
  fits_int64 (next_api_id (api_configs initial_state)) = true /\
  fits_int64 21724 = true /\
  fst (get_api_by_id 5 initial_state) = Ok None /\
  fst (get_api_by_id 5
         (snd (add_api_config "Telegram X" 21724
                              "3e0cb5efcd52300aec5994fdfc5bdc16"
                              initial_state)))
  = Ok (Some (mkApiConfig 5 "Telegram X" 21724
                          "3e0cb5efcd52300aec5994fdfc5bdc16")) /\
  add_api_config "Telegram X" (2 ^ 63) "3e0cb5efcd52300aec5994fdfc5bdc16"
                 initial_state
  = (Raise overflow_error, initial_state).
Proof.
  split; [vm_compute; reflexivity |].
  split; [reflexivity |].
  destruct (add_api_config_round_trip
              "Telegram X" 21724 "3e0cb5efcd52300aec5994fdfc5bdc16"
              initial_state) as [Hin _]; [vm_compute; reflexivity |].
  destruct (add_api_config_round_trip
              "Telegram X" (2 ^ 63) "3e0cb5efcd52300aec5994fdfc5bdc16"
              initial_state) as [_ Hout]; [vm_compute; reflexivity |].
  destruct (Hin eq_refl) as (_ & Hbefore & _ & Hafter & _).
  split; [exact Hbefore |]. split; [exact Hafter |].
  apply Hout. reflexivity.
Defined.

(** Inserting a list of rows gives them consecutive new ids and keeps
    everything else. *)
Lemma insert_rows_run (l : list (string * Z * string)) (st : State) :
  Forall (fun api => fits_int64 api.1.2 = true) l ->
  exists t',
    for_each l (fun api => insert_api_config api.1.1 api.1.2 api.2) st
    = (Ok tt,
       mkState (active_qr_sessions st) t' (user_sessions st) (connected st)
               (next_client st) (clock st) (trace st)) /\
    size t' = (size (api_configs st) + length l)%nat /\
    (forall k cfg, api_configs st !! k = Some cfg -> t' !! k = Some cfg) /\
    (forall (i : nat) name api_id api_hash,
       l !! i = Some (name, api_id, api_hash) ->
       t' !! (next_api_id (api_configs st) + Z.of_nat i)
       = Some (mkApiConfig (next_api_id (api_configs st) + Z.of_nat i)
                           name api_id api_hash)).
Proof.
  revert st. induction l as [|[[name api_id] api_hash] l IH]; intros st Hl.
  - exists (api_configs st). destruct st. simpl.
    repeat split; auto; try lia. intros i ? ? ? Hi. discriminate Hi.
  - apply Forall_cons in Hl as [Hf Hl]. simpl in Hf.
    simpl. unfold bind at 1. rewrite (insert_api_config_run _ _ _ _ Hf).
    simpl.
    match goal with
    | |- context [for_each l _ ?s] =>
        destruct (IH s Hl) as (t' & Hrun & Hsize & Hold & Hnew)
    end.
    simpl in Hsize, Hold, Hnew. exists t'. rewrite Hrun. simpl.
    split; [reflexivity|].
    split.
    { rewrite Hsize, map_size_insert_None by apply next_api_id_fresh. lia. }
    split.
    { intros k cfg Hk. apply Hold. rewrite lookup_insert_ne; [exact Hk|].
      intros Heq. subst k. rewrite next_api_id_fresh in Hk. discriminate. }
    intros [|i] name' api_id' api_hash' Hi; simpl in Hi.
    + injection Hi as <- <- <-. rewrite Z.add_0_r.
      apply Hold. apply lookup_insert_eq.
    + specialize (Hnew i name' api_id' api_hash' Hi).
      rewrite next_api_id_insert in Hnew.
      replace (next_api_id (api_configs st) + Z.of_nat (S i))
        with (next_api_id (api_configs st) + 1 + Z.of_nat i) by lia.
      exact Hnew.
Qed.

(** X13: [add_default_apis] adds four rows every time it runs, whatever the
    table holds, also when it already holds the defaults: the table grows by
    four, the four default profiles get the next four ids, and the rows that
    were there are kept. *)
Theorem add_default_apis_adds_four (st : State) :
  let st' := snd (add_default_apis st) in
  let n := next_api_id (api_configs st) in
  fst (add_default_apis st) = Ok tt /\
  size (api_configs st') = (size (api_configs st) + 4)%nat /\
  (forall k cfg, api_configs st !! k = Some cfg ->
                 api_configs st' !! k = Some cfg) /\
  api_configs st' !! n
  = Some (mkApiConfig n "Telegram Desktop" 2040
                      "b18441a1ff607e10a989891a5462e627") /\
  api_configs st' !! (n + 1)
  = Some (mkApiConfig (n + 1) "Android" 6
                      "eb06d4abfb49dc3eeb1aeb98ae0f581e") /\
  api_configs st' !! (n + 2)
  = Some (mkApiConfig (n + 2) "iOS" 4 "014b35b6184100b085b0d0572f9b5103") /\
  api_configs st' !! (n + 3)
  = Some (mkApiConfig (n + 3) "Webogram" 2496
                      "8da85b0d5bfe62527e5b244c209159c3") /\
  active_qr_sessions st' = active_qr_sessions st /\
  user_sessions st' = user_sessions st.
Proof.
  cbv zeta. unfold add_default_apis.
  destruct (insert_rows_run default_api_rows st)
    as (t' & Hrun & Hsize & Hold & Hnew).
  { repeat constructor. }
  rewrite Hrun. simpl.
  split; [reflexivity|]. split; [exact Hsize|]. split; [exact Hold|].
  pose proof (Hnew 0%nat _ _ _ eq_refl) as H0.
  pose proof (Hnew 1%nat _ _ _ eq_refl) as H1.
  pose proof (Hnew 2%nat _ _ _ eq_refl) as H2.
  pose proof (Hnew 3%nat _ _ _ eq_refl) as H3.
  rewrite Z.add_0_r in H0. simpl in H1, H2, H3.
  repeat split; assumption.
Qed.

(** The table of a fresh database is the one the manager's initial state
    holds. *)
Lemma add_default_apis_initial :
  api_configs (snd (add_default_apis (mkState ∅ ∅ [] ∅ 0 0 [])))
  = default_apis.
Proof. vm_compute. reflexivity. Qed.

(** X14: a profile added with [add_api_config] can be used at once.  When
    the [api_id] and the generated key are signed 64-bit integers, the
    [api_id] and the [api_hash] are not empty (the constructor of the client
    refuses an empty one) and the user id is a signed 64-bit integer (the
    action log binds it), a [create_qr_session] with the id the new row got
    finds the profile, and succeeds when the connection and the QR login
    do. *)
Theorem added_profile_opens_handshake
    (net : CreateNet) (u : Z) (msg : Message) (st : State)
    (name : string) (api_id : Z) (api_hash : string) (url : string) :
  fits_int64 api_id = true ->
  fits_int64 (next_api_id (api_configs st)) = true ->
  fits_int64 u = true ->
  api_id <> 0 ->
  api_hash <> "" ->
  net_connect net = Ok tt ->
  net_qr_login net = Ok url ->
  let st1 := snd (add_api_config name api_id api_hash st) in
  let r := create_qr_session net u (next_api_id (api_configs st)) msg st1 in
  fst r = Ok (true, url) /\
  exists s, active_qr_sessions (snd r) !! u = Some s /\
            api_name s = name /\ qr_login s = url.
Proof.
  intros Hf _ _ _ _ Hco Hql. cbv zeta. unfold add_api_config.
  rewrite (insert_api_config_run _ _ _ _ Hf). simpl.
  erewrite create_success_run; [| simpl; apply lookup_insert_eq
                                | exact Hco | exact Hql].
  simpl. split; [reflexivity|].
  eexists. split; [apply lookup_insert_eq|]. split; reflexivity.
Qed.

Lemma added_profile_opens_handshake_witness :
  fits_int64 21724 = true /\
  fits_int64 (next_api_id (api_configs initial_state)) = true /\
  fits_int64 1001 = true /\
  net_connect (create_ok "tg://login?token=Aw") = Ok tt /\
  net_qr_login (create_ok "tg://login?token=Aw") = Ok "tg://login?token=Aw" /\
  fst (create_qr_session (create_ok "tg://login?token=Aw") 1001
         (next_api_id (api_configs initial_state)) 0%nat
         (snd (add_api_config "Telegram X" 21724
                              "3e0cb5efcd52300aec5994fdfc5bdc16"
                              initial_state)))
  = Ok (true, "tg://login?token=Aw").
Proof.
  split; [reflexivity |]. split; [vm_compute; reflexivity |].
  split; [reflexivity |]. split; [reflexivity |]. split; [reflexivity |].
  apply (added_profile_opens_handshake
           (create_ok "tg://login?token=Aw") 1001 0%nat initial_state
           "Telegram X" 21724 "3e0cb5efcd52300aec5994fdfc5bdc16"
           "tg://login?token=Aw");
    first [reflexivity | vm_compute; reflexivity | discriminate].
Defined.

(** ** The HTTP routes *)

(** What [api_check_session] answers; it changes nothing. *)
Lemma api_check_session_run
    (order : list SessionRow -> list SessionRow) (u a : Z) (st : State) :
  api_check_session order u a st
  = (Ok match active_qr_sessions st !! u with
        | Some _ => StatusWaiting "Ожидание сканирования QR-кода"
        | None =>
            match order (rows_of st u) with
            | row :: _ =>
                StatusCompleted (row_telegram_id row) (row_phone_number row)
            | [] => StatusError "Сессия не найдена"
            end
        end,
     st).
Proof.
  unfold rows_of. destruct st as [reg apis rows conn next clk tr]. red_db.
  destruct (reg !! u) as [s|]; [reflexivity|].
  destruct (order (filter (fun row => row_user_id row = u) rows));
    reflexivity.
Qed.

(** X15: after [wait_for_qr_scan] returned the not-authorized failure for a
    session in flight, [api_check_session] keeps answering that the QR code
    is being waited for, whatever sessions the user has saved. *)
Theorem check_session_waits_after_unauthorized
    (order : list SessionRow -> list SessionRow)
    (net : WaitNet) (u a : Z) (st : State) (data : Session) :
  active_qr_sessions st !! u = Some data ->
  fst (wait_for_qr_scan net u st) = Ok (false, Text msg_not_authorized) ->
  fst (api_check_session order u a (snd (wait_for_qr_scan net u st)))
  = Ok (StatusWaiting "Ожидание сканирования QR-кода").
Proof.
  intros Hs Hres.
  destruct (wait_unauthorized_inv net u st data Hs Hres)
    as (t & Hscan & Ht & Hauth).
  rewrite api_check_session_run.
  rewrite (wait_unauthorized_run net u st data t Hs Hscan Ht Hauth).
  simpl. rewrite Hs. reflexivity.
Qed.

Lemma check_session_waits_after_unauthorized_witness :
  active_qr_sessions (state_waiting 1001) !! 1001 = Some session_waiting /\
  fst (wait_for_qr_scan wait_unauthorized 1001 (state_waiting 1001))
  = Ok (false, Text msg_not_authorized) /\
  fst (api_check_session (fun l => l) 1001 1
         (snd (wait_for_qr_scan wait_unauthorized 1001 (state_waiting 1001))))
  = Ok (StatusWaiting "Ожидание сканирования QR-кода").
Proof.
  split; [apply state_waiting_lookup |].
  split; [vm_compute; reflexivity |].
  apply (check_session_waits_after_unauthorized
           (fun l => l) wait_unauthorized 1001 1 (state_waiting 1001)
           session_waiting).
  - apply state_waiting_lookup.
  - vm_compute. reflexivity.
Defined.

(** X16: after a handshake timed out, [api_check_session] answers by the
    user's saved sessions alone: the not-found error when the user has none,
    and otherwise "completed" with the identity of a session saved earlier,
    though the handshake asked about failed. *)
Theorem check_session_after_timeout
    (order : list SessionRow -> list SessionRow)
    (net : WaitNet) (u a : Z) (st : State) (data : Session) :
  (forall l, order l ≡ₚ l) ->
  active_qr_sessions st !! u = Some data ->
  no_scan_within 120 (net_scan net) ->
  let answer :=
    fst (api_check_session order u a (snd (wait_for_qr_scan net u st))) in
  (rows_of st u = [] -> answer = Ok (StatusError "Сессия не найдена")) /\
  (rows_of st u <> [] ->
   exists row, row ∈ rows_of st u /\
     answer = Ok (StatusCompleted (row_telegram_id row)
                                  (row_phone_number row))).
Proof.
  intros Hperm Hs Hw. cbv zeta.
  rewrite api_check_session_run, (wait_timeout_run net u st data Hs Hw).
  unfold rows_of. simpl. rewrite lookup_delete_eq.
  remember (filter (fun row => row_user_id row = u) (user_sessions st))
    as l eqn:El.
  pose proof (Hperm l) as Hl. clear El. split.
  - intros Hnil. subst l. apply Permutation_nil_r in Hl.
    rewrite Hl. reflexivity.
  - intros Hne. destruct (order l) as [|row rest] eqn:Ho.
    + apply Permutation_nil_l in Hl. congruence.
    + exists row. split; [|reflexivity].
      rewrite <- Hl. apply list_elem_of_here.
Qed.

Lemma check_session_after_timeout_witness :
  (forall l : list SessionRow, (fun l => l) l ≡ₚ l) /\
  active_qr_sessions state_returning !! 1001 = Some session_returning /\
  no_scan_within 120 (net_scan wait_never) /\
  rows_of state_returning 1001 <> [] /\
  exists row, row ∈ rows_of state_returning 1001 /\
    fst (api_check_session (fun l => l) 1001 2
           (snd (wait_for_qr_scan wait_never 1001 state_returning)))
    = Ok (StatusCompleted (row_telegram_id row) (row_phone_number row)).
Proof.
  split; [reflexivity |].
  split; [vm_compute; reflexivity |].
  split; [exact I |].
  split; [vm_compute; discriminate |].
  apply (check_session_after_timeout
           (fun l => l) wait_never 1001 2 state_returning session_returning).
  - reflexivity.
  - vm_compute. reflexivity.
  - exact I.
  - vm_compute. discriminate.
Defined.

(** X17: after [wait_for_qr_scan] returned a session for a user who had no
    saved session before, [api_check_session] answers "completed" with the
    telegram id and the phone number that the call returned. *)
Theorem check_session_after_confirmation
    (order : list SessionRow -> list SessionRow)
    (net : WaitNet) (u a : Z) (st : State) (info : SessionInfo) :
  (forall l, order l ≡ₚ l) ->
  rows_of st u = [] ->
  fst (wait_for_qr_scan net u st) = Ok (true, Info info) ->
  fst (api_check_session order u a (snd (wait_for_qr_scan net u st)))
  = Ok (StatusCompleted (telegram_id info) (phone_number info)).
Proof.
  intros Hperm Hnil Hres.
  destruct (wait_confirmed_inv _ _ _ _ Hres)
    as (data & t & Hs & Hscan & Ht & Hauth & Hdisc).
  pose proof (wait_confirmed_run net u st data t Hs Hscan Ht Hauth Hdisc)
    as Hrun.
  cbv zeta in Hrun. rewrite api_check_session_run. rewrite Hrun in Hres |- *.
  simpl in Hres. injection Hres as <-.
  unfold rows_of in *. simpl. rewrite lookup_delete_eq.
  rewrite filter_cons, decide_True by reflexivity. rewrite Hnil.
  match goal with
  | |- context [order [?row]] =>
      pose proof (Hperm [row]) as Hl;
      apply Permutation_singleton_r in Hl; rewrite Hl
  end.
  reflexivity.
Qed.

Lemma check_session_after_confirmation_witness :
  (forall l : list SessionRow, (fun l => l) l ≡ₚ l) /\
  rows_of (state_waiting 1001) 1001 = [] /\
  fst (wait_for_qr_scan (wait_ok (Ok (Some user_555))) 1001
                        (state_waiting 1001))
  = Ok (true, Info (mkSessionInfo "1Aa" (Some 555) (Some "+1555")
                                  "Telegram Desktop")) /\
  fst (api_check_session (fun l => l) 1001 1
         (snd (wait_for_qr_scan (wait_ok (Ok (Some user_555))) 1001
                                (state_waiting 1001))))
  = Ok (StatusCompleted (Some 555) (Some "+1555")).
Proof.
  split; [reflexivity |].
  split; [vm_compute; reflexivity |].
  split; [vm_compute; reflexivity |].
  apply (check_session_after_confirmation
           (fun l => l) (wait_ok (Ok (Some user_555))) 1001 1
           (state_waiting 1001)
           (mkSessionInfo "1Aa" (Some 555) (Some "+1555")
                          "Telegram Desktop")).
  - reflexivity.
  - vm_compute. reflexivity.
  - vm_compute. reflexivity.
Defined.

(** What [api_create_session] answers, by what [create_qr_session]
    returns. *)
Lemma api_create_session_run (net : CreateNet) (u p : Z) (st : State) :
  api_create_session net u p st
  = (Ok match fst (create_qr_session net u p dummy_msg st) with
        | Ok (true, url) =>
            CreateSuccess
              ("https://api.qrserver.com/v1/create-qr-code/?size=300x300&data="
               +:+ url)
        | Ok (false, m) => CreateFailure m
        | Raise e => CreateFailure (str e)
        end,
     snd (create_qr_session net u p dummy_msg st)).
Proof.
  unfold api_create_session, try_except, bind.
  destruct (create_qr_session net u p dummy_msg st) as [[[[] s]|e] st'];
    reflexivity.
Qed.

(** X18: after a success answer of [api_create_session],
    [api_check_session] for the same user answers that the QR code is being
    waited for.  When the profile id is in no row, or [connect] raises, or
    [qr_login] raises, [api_create_session] gives a failure answer, and
    [api_check_session] then answers what it would have answered before the
    call. *)
Theorem api_create_session_then_check
    (order : list SessionRow -> list SessionRow)
    (net : CreateNet) (u p a : Z) (st : State) :
  let r := api_create_session net u p st in
  (forall qr, fst r = Ok (CreateSuccess qr) ->
     fst (api_check_session order u a (snd r))
     = Ok (StatusWaiting "Ожидание сканирования QR-кода")) /\
  (api_configs st !! p = None \/
   (exists e, net_connect net = Raise e) \/
   (exists e, net_qr_login net = Raise e) ->
   (exists err, fst r = Ok (CreateFailure err)) /\
   fst (api_check_session order u a (snd r))
   = fst (api_check_session order u a st)).
Proof.
  cbv zeta. rewrite api_create_session_run, !api_check_session_run.
  destruct (api_configs st !! p) as [cfg|] eqn:Hp.
  - create_cases net u p dummy_msg st cfg Hp; unfold rows_of; simpl;
      (split; [intros qr Hres | intros Hfail]);
      try discriminate Hres; eauto.
    + rewrite lookup_insert_eq. reflexivity.
    + destruct Hfail as [Hfail|[[e He]|[e He]]]; discriminate.
  - rewrite (create_absent_run net u p dummy_msg st Hp). simpl.
    split; [intros qr Hres; discriminate Hres | eauto].
Qed.

Lemma api_create_session_then_check_witness :
  (exists qr,
     fst (api_create_session (create_ok "tg://login?token=AQ") 1001 1
                             initial_state) = Ok (CreateSuccess qr)) /\
  fst (api_check_session (fun l => l) 1001 1
         (snd (api_create_session (create_ok "tg://login?token=AQ") 1001 1
                                  initial_state)))
  = Ok (StatusWaiting "Ожидание сканирования QR-кода") /\
  api_configs initial_state !! 77 = None /\
  fst (api_check_session (fun l => l) 1001 1
         (snd (api_create_session (create_ok "tg://login?token=AQ") 1001 77
                                  initial_state)))
  = fst (api_check_session (fun l => l) 1001 1 initial_state).
Proof.
  split; [eexists; vm_compute; reflexivity |].
  split.
  - eapply (proj1 (api_create_session_then_check
                     (fun l => l) (create_ok "tg://login?token=AQ")
                     1001 1 1 initial_state)).
    vm_compute. reflexivity.
  - split; [vm_compute; reflexivity |].
    apply (proj2 (api_create_session_then_check
                    (fun l => l) (create_ok "tg://login?token=AQ")
                    1001 77 1 initial_state)).
    left. vm_compute. reflexivity.
Defined.

(** ** The bot's waiting task *)

(** Evaluates the task around the manager's call, which stays folded. *)
Ltac red_bot :=
  lazy beta iota zeta delta
    [wait_and_send_session btry_except bbind bret braise lift chat_call
     as_session_info format_result manager outbox bot_over
     sleep log_action emit advance bind ret
     active_qr_sessions api_configs user_sessions connected next_client
     clock trace
     net_status net_waiting net_edit net_document net_preview net_apology
     net_dict_str fst snd] in *.

(** The task when the status line cannot be sent. *)
Lemma wait_and_send_status_error_run
    (net : SendNet) (u : Z) (msg : Message) (b : BotState) (e : Exn) :
  net_status net = Raise e ->
  wait_and_send_session net u msg b
  = (Ok tt,
     mkBotState (snd (sleep 2 (manager b)))
                (match net_apology net with
                 | Ok _ => outbox b ++ [Answer msg (msg_error e)]
                 | Raise _ => outbox b
                 end)).
Proof.
  intros Hstatus. destruct b as [[reg apis rows conn next clk tr] out].
  destruct net as [status wnet edit doc prev apology dict_str].
  red_bot. subst status. destruct apology as [[]|e']; reflexivity.
Qed.

(** X20: when the status line cannot be sent, [wait_and_send_session] never
    calls [wait_for_qr_scan]: it returns normally, and the session that was
    opened stays in the registry with its client connected and never
    disconnected. *)
Theorem status_failure_abandons_session
    (net : SendNet) (u : Z) (msg : Message) (b : BotState)
    (data : Session) (e : Exn) :
  active_qr_sessions (manager b) !! u = Some data ->
  net_status net = Raise e ->
  let b' := snd (wait_and_send_session net u msg b) in
  active_qr_sessions (manager b') !! u = Some data /\
  connected (manager b') = connected (manager b) /\
  events_since (manager b) (manager b') = [EvSleep 2].
Proof.
  intros Hs Hstatus. cbv zeta.
  rewrite (wait_and_send_status_error_run net u msg b e Hstatus).
  destruct b as [[reg apis rows conn next clk tr] out].
  unfold events_since. red_bot. rewrite drop_app_length.
  repeat split. exact Hs.
Qed.

Lemma status_failure_abandons_session_witness :
  active_qr_sessions (manager (bot_over (state_waiting 1001))) !! 1001
  = Some session_waiting /\
  net_status (send_blocked wait_never)
  = Raise (Exception "Forbidden: bot was blocked by the user") /\
  active_qr_sessions
    (manager (snd (wait_and_send_session (send_blocked wait_never) 1001
                     0%nat (bot_over (state_waiting 1001))))) !! 1001
  = Some session_waiting.
Proof.
  split; [apply state_waiting_lookup |]. split; [reflexivity |].
  apply (status_failure_abandons_session
           (send_blocked wait_never) 1001 0%nat
           (bot_over (state_waiting 1001)) session_waiting
           (Exception "Forbidden: bot was blocked by the user")).
  - apply state_waiting_lookup.
  - reflexivity.
Defined.

(** The task when the wait fails and the chat works. *)
Lemma wait_and_send_failure_run
    (net : SendNet) (u : Z) (msg : Message) (b : BotState) (m : string) :
  net_status net = Ok tt ->
  net_edit net = Ok tt ->
  fst (wait_for_qr_scan (net_waiting net) u (snd (sleep 2 (manager b))))
  = Ok (false, Text m) ->
  wait_and_send_session net u msg b
  = (Ok tt,
     mkBotState
       (snd (log_action u "qr_failed" ("reason: " +:+ m)
               (snd (wait_for_qr_scan (net_waiting net) u
                                      (snd (sleep 2 (manager b)))))))
       (outbox b ++ [ Answer msg "⏳ Ожидаю сканирование QR-кода...";
                      EditText (length (outbox b)) ("❌ " +:+ m) ])).
Proof.
  intros Hstatus Hedit Hres.
  destruct b as [[reg apis rows conn next clk tr] out].
  destruct net as [status wnet edit doc prev apology dict_str].
  red_bot. subst status edit.
  destruct (wait_for_qr_scan wnet u _) as [[[ok payload]|e] st'].
  - red_bot. injection Hres as -> ->. red_bot.
    rewrite <- app_assoc. reflexivity.
  - discriminate Hres.
Qed.

Lemma wait_failure_text_marked
    (net : WaitNet) (u : Z) (st : State) (m : string) :
  fst (wait_for_qr_scan net u st) = Ok (false, Text m) ->
  exists rest, m = "❌ " +:+ rest.
Proof.
  intros Hres.
  destruct (wait_result_cases net u st) as [[info H]|(m' & H & Hm)];
    rewrite H in Hres; [discriminate|].
  injection Hres as <-.
  destruct Hm as [->|[->|[->|[e ->]]]]; eexists; reflexivity.
Qed.

(** X21: when [wait_for_qr_scan] fails and the chat works,
    [wait_and_send_session] replaces its status line by the failure text of
    the manager behind a cross mark, and logs the action "qr_failed" with
    that text as the reason; it sends nothing else.  The manager's failure
    texts begin with a cross mark themselves, so the user reads two. *)
Theorem wait_and_send_session_reports_failure
    (net : SendNet) (u : Z) (msg : Message) (b : BotState) (m : string) :
  net_status net = Ok tt ->
  net_edit net = Ok tt ->
  fst (wait_for_qr_scan (net_waiting net) u (snd (sleep 2 (manager b))))
  = Ok (false, Text m) ->
  let b' := snd (wait_and_send_session net u msg b) in
  let st2 := snd (wait_for_qr_scan (net_waiting net) u
                                   (snd (sleep 2 (manager b)))) in
  outbox b' = outbox b ++ [ Answer msg "⏳ Ожидаю сканирование QR-кода...";
                            EditText (length (outbox b)) ("❌ " +:+ m) ] /\
  events_since st2 (manager b')
  = [EvLogAction u "qr_failed" ("reason: " +:+ m)] /\
  user_sessions (manager b') = user_sessions st2 /\
  active_qr_sessions (manager b') = active_qr_sessions st2 /\
  exists rest, "❌ " +:+ m = "❌ ❌ " +:+ rest.
Proof.
  intros Hstatus Hedit Hres. cbv zeta.
  rewrite (wait_and_send_failure_run net u msg b m Hstatus Hedit Hres).
  destruct (wait_failure_text_marked _ _ _ _ Hres) as [rest ->].
  destruct (wait_for_qr_scan _ _ _) as [r [reg apis rows conn next clk tr]].
  unfold events_since. red_bot. rewrite drop_app_length.
  repeat split. exists rest. reflexivity.
Qed.

Lemma wait_and_send_session_reports_failure_witness :
  net_status (send_ok wait_unauthorized) = Ok tt /\
  net_edit (send_ok wait_unauthorized) = Ok tt /\
  fst (wait_for_qr_scan (net_waiting (send_ok wait_unauthorized)) 1001
         (snd (sleep 2 (manager (bot_over (state_waiting 1001))))))
  = Ok (false, Text msg_not_authorized) /\
  outbox (snd (wait_and_send_session (send_ok wait_unauthorized) 1001 0%nat
                 (bot_over (state_waiting 1001))))
  = outbox (bot_over (state_waiting 1001))
    ++ [ Answer 0%nat "⏳ Ожидаю сканирование QR-кода...";
         EditText (length (outbox (bot_over (state_waiting 1001))))
                  ("❌ " +:+ msg_not_authorized) ].
Proof.
  split; [reflexivity |]. split; [reflexivity |].
  split; [vm_compute; reflexivity |].
  apply (wait_and_send_session_reports_failure
           (send_ok wait_unauthorized) 1001 0%nat
           (bot_over (state_waiting 1001)) msg_not_authorized).
  - reflexivity.
  - reflexivity.
  - vm_compute. reflexivity.
Defined.

(** The task when the wait succeeds and the chat works. *)
Lemma wait_and_send_success_run
    (net : SendNet) (u : Z) (msg : Message) (b : BotState)
    (info : SessionInfo) :
  net_status net = Ok tt ->
  net_edit net = Ok tt ->
  net_document net = Ok tt ->
  net_preview net = Ok tt ->
  fst (wait_for_qr_scan (net_waiting net) u (snd (sleep 2 (manager b))))
  = Ok (true, Info info) ->
  wait_and_send_session net u msg b
  = (Ok tt,
     mkBotState
       (snd (log_action u "session_sent"
               ("tg_id: " +:+ str_int (telegram_id info))
               (snd (wait_for_qr_scan (net_waiting net) u
                                      (snd (sleep 2 (manager b)))))))
       (outbox b
        ++ [ Answer msg "⏳ Ожидаю сканирование QR-кода...";
             EditText (length (outbox b)) "✅ Сессия получена! Отправляю...";
             AnswerDocument msg (session_filename info)
                            (session_string info) (session_caption info);
             Answer msg (session_preview info) ])).
Proof.
  intros Hstatus Hedit Hdoc Hprev Hres.
  destruct b as [[reg apis rows conn next clk tr] out].
  destruct net as [status wnet edit doc prev apology dict_str].
  red_bot. subst status edit doc prev.
  destruct (wait_for_qr_scan wnet u _) as [[[ok payload]|e] st'].
  - red_bot. injection Hres as -> ->. red_bot.
    rewrite <- !app_assoc. reflexivity.
  - discriminate Hres.
Qed.

(** X22: when [wait_for_qr_scan] returns a session and the chat works,
    the document [wait_and_send_session] sends holds exactly the session
    string that the newest row of the user's saved sessions holds, and the
    action "session_sent" is logged after the session was saved. *)
Theorem wait_and_send_session_delivers_saved_session
    (net : SendNet) (u : Z) (msg : Message) (b : BotState)
    (info : SessionInfo) :
  net_status net = Ok tt ->
  net_edit net = Ok tt ->
  net_document net = Ok tt ->
  net_preview net = Ok tt ->
  fst (wait_for_qr_scan (net_waiting net) u (snd (sleep 2 (manager b))))
  = Ok (true, Info info) ->
  let b' := snd (wait_and_send_session net u msg b) in
  outbox b'
  = outbox b
    ++ [ Answer msg "⏳ Ожидаю сканирование QR-кода...";
         EditText (length (outbox b)) "✅ Сессия получена! Отправляю...";
         AnswerDocument msg (session_filename info) (session_string info)
                        (session_caption info);
         Answer msg (session_preview info) ] /\
  (exists row rest,
     user_sessions (manager b') = row :: rest /\
     rest = user_sessions (manager b) /\
     row_user_id row = u /\
     row_session_string row = session_string info /\
     row_telegram_id row = telegram_id info /\
     row_phone_number row = phone_number info /\
     precedes (EvSaveSession row)
              (EvLogAction u "session_sent"
                           ("tg_id: " +:+ str_int (telegram_id info)))
              (events_since (manager b) (manager b'))) /\
  active_qr_sessions (manager b') !! u = None.
Proof.
  intros Hstatus Hedit Hdoc Hprev Hres. cbv zeta.
  rewrite (wait_and_send_success_run net u msg b info
             Hstatus Hedit Hdoc Hprev Hres).
  destruct (wait_confirmed_inv _ _ _ _ Hres)
    as (data & t & Hs & Hscan & Ht & Hauth & Hdisc).
  pose proof (wait_confirmed_run (net_waiting net) u _ data t
                Hs Hscan Ht Hauth Hdisc) as Hrun.
  cbv zeta in Hrun. rewrite Hrun in Hres |- *. clear Hrun.
  destruct b as [[reg apis rows conn next clk tr] out].
  unfold events_since, saved_events in *. red_bot.
  injection Hres as <-.
  split; [reflexivity|]. split; [|apply lookup_delete_eq].
  eexists _, _. split; [reflexivity|].
  repeat split.
  rewrite <- !app_assoc, drop_app_length.
  eexists [_; _; _; _; _], [_; _; _], []. reflexivity.
Qed.

Lemma wait_and_send_session_delivers_saved_session_witness :
  net_status (send_ok (wait_ok (Ok (Some user_555)))) = Ok tt /\
  net_edit (send_ok (wait_ok (Ok (Some user_555)))) = Ok tt /\
  net_document (send_ok (wait_ok (Ok (Some user_555)))) = Ok tt /\
  net_preview (send_ok (wait_ok (Ok (Some user_555)))) = Ok tt /\
  fst (wait_for_qr_scan
         (net_waiting (send_ok (wait_ok (Ok (Some user_555))))) 1001
         (snd (sleep 2 (manager (bot_over (state_waiting 1001))))))
  = Ok (true, Info (mkSessionInfo "1Aa" (Some 555) (Some "+1555")
                                  "Telegram Desktop")) /\
  active_qr_sessions
    (manager (snd (wait_and_send_session
                     (send_ok (wait_ok (Ok (Some user_555)))) 1001 0%nat
                     (bot_over (state_waiting 1001))))) !! 1001 = None.
Proof.
  split; [reflexivity |]. split; [reflexivity |].
  split; [reflexivity |]. split; [reflexivity |].
  split; [vm_compute; reflexivity |].
  apply (wait_and_send_session_delivers_saved_session
           (send_ok (wait_ok (Ok (Some user_555)))) 1001 0%nat
           (bot_over (state_waiting 1001))
           (mkSessionInfo "1Aa" (Some 555) (Some "+1555")
                          "Telegram Desktop")).
  - reflexivity.
  - reflexivity.
  - reflexivity.
  - reflexivity.
  - vm_compute. reflexivity.
Defined.

Lemma string_app_assoc (s1 s2 s3 : string) :
  (s1 +:+ s2) +:+ s3 = s1 +:+ s2 +:+ s3.
Proof.
  induction s1 as [|a s1 IH]; [reflexivity|].
  change (String a ((s1 +:+ s2) +:+ s3) = String a (s1 +:+ s2 +:+ s3)).
  rewrite IH. reflexivity.
Qed.

(** X23: when the session that [wait_for_qr_scan] returns has no telegram
    id, because the identity fetch failed, [wait_and_send_session] names the
    document telegram_session_None.txt and logs "tg_id: None": the value
    under the key is [None], so the defaults of the two [get] calls, the
    empty string and "unknown", are not used.  The caption then has neither
    the id line nor, without a phone number, the phone line. *)
Theorem unknown_identity_is_named_None
    (net : SendNet) (u : Z) (msg : Message) (b : BotState)
    (info : SessionInfo) :
  net_status net = Ok tt ->
  net_edit net = Ok tt ->
  net_document net = Ok tt ->
  net_preview net = Ok tt ->
  fst (wait_for_qr_scan (net_waiting net) u (snd (sleep 2 (manager b))))
  = Ok (true, Info info) ->
  telegram_id info = None ->
  phone_number info = None ->
  let b' := snd (wait_and_send_session net u msg b) in
  AnswerDocument msg "telegram_session_None.txt" (session_string info)
    ("✅ <b>Сессия успешно создана!</b>" +:+ nl +:+ nl
     +:+ "🔧 API: " +:+ info_api_name info +:+ nl +:+ nl
     +:+ "💾 <b>Сохраните этот файл!</b>" +:+ nl
     +:+ "🔒 Он дает полный доступ к аккаунту.")
    ∈ outbox b' /\
  EvLogAction u "session_sent" "tg_id: None" ∈ trace (manager b').
Proof.
  intros Hstatus Hedit Hdoc Hprev Hres Htid Hphone. cbv zeta.
  rewrite (wait_and_send_success_run net u msg b info
             Hstatus Hedit Hdoc Hprev Hres).
  destruct info as [blob tid phone name]. simpl in Htid, Hphone. subst.
  destruct (wait_for_qr_scan _ _ _) as [r [reg apis rows conn next clk tr]].
  red_bot. split.
  - apply elem_of_app. right.
    apply list_elem_of_further, list_elem_of_further.
    unfold session_filename, session_caption. simpl.
    rewrite !string_app_assoc. apply list_elem_of_here.
  - apply elem_of_app. right. apply list_elem_of_here.
Qed.

Lemma unknown_identity_is_named_None_witness :
  fst (wait_for_qr_scan
         (net_waiting (send_ok (wait_ok (Raise (Exception "FloodWaitError")))))
         1001 (snd (sleep 2 (manager (bot_over (state_waiting 1001))))))
  = Ok (true, Info (mkSessionInfo "1Aa" None None "Telegram Desktop")) /\
  EvLogAction 1001 "session_sent" "tg_id: None"
    ∈ trace (manager
               (snd (wait_and_send_session
                       (send_ok (wait_ok (Raise (Exception "FloodWaitError"))))
                       1001 0%nat (bot_over (state_waiting 1001))))).
Proof.
  split; [vm_compute; reflexivity |].
  apply (unknown_identity_is_named_None
           (send_ok (wait_ok (Raise (Exception "FloodWaitError"))))
           1001 0%nat (bot_over (state_waiting 1001))
           (mkSessionInfo "1Aa" None None "Telegram Desktop")).
  - reflexivity.
  - reflexivity.
  - reflexivity.
  - reflexivity.
  - vm_compute. reflexivity.
  - reflexivity.
  - reflexivity.
Defined.

Lemma py_prefix_spec (n : nat) (s : string) :
  (exists rest, s = py_prefix n s +:+ rest) /\
  (char_count (py_prefix n s) <= n)%nat /\
  ((char_count s <= n)%nat -> py_prefix n s = s).
Proof.
  revert n. induction s as [|a s IH]; intros n.
  - simpl. repeat split; [exists ""; reflexivity | lia].
  - simpl. destruct (is_continuation a) eqn:Ha.
    + destruct (IH n) as ([rest Hrest] & Hle & Hall). simpl. rewrite Ha.
      repeat split.
      * exists rest.
        change (String a s = String a (py_prefix n s +:+ rest)).
        rewrite <- Hrest. reflexivity.
      * exact Hle.
      * intros Hc. rewrite (Hall Hc). reflexivity.
    + destruct n as [|n].
      * simpl. repeat split; [exists (String a s); reflexivity | lia | lia].
      * destruct (IH n) as ([rest Hrest] & Hle & Hall). simpl. rewrite Ha.
        repeat split.
        -- exists rest.
           change (String a s = String a (py_prefix n s +:+ rest)).
           rewrite <- Hrest. reflexivity.
        -- lia.
        -- intros Hc. rewrite Hall by lia. reflexivity.
Qed.

(** X24: the preview [wait_and_send_session] sends shows the beginning of
    the session string, never more than 100 characters of it, and all of it
    when it has at most 100; the three dots follow in either case. *)
Theorem session_preview_shows_prefix (info : SessionInfo) :
  exists shown rest,
    session_preview info
    = "📋 <b>Session String:</b>" +:+ nl
      +:+ "<code>" +:+ shown +:+ "...</code>" +:+ nl +:+ nl
      +:+ "<i>Полный текст в файле выше</i>" /\
    session_string info = shown +:+ rest /\
    (char_count shown <= 100)%nat /\
    ((char_count (session_string info) <= 100)%nat ->
     shown = session_string info).
Proof.
  destruct (py_prefix_spec 100 (session_string info))
    as ([rest Hrest] & Hle & Hall).
  exists (py_prefix 100 (session_string info)), rest.
  split; [reflexivity|]. split; [exact Hrest|]. split; assumption.
Qed.
